(** * GAUR fraud triage: a shallow embedding of the scoring and retention code

    The development follows the Python sources of the backend:
    - [app/ai/fraud_detector.py]            (module [FraudDetector])
    - [app/ai/gpt_html_fraud_detector.py]   (module [GPTHTMLFraudDetector])
    - [app/ai/gpt_vision_fraud_detector.py], [app/ai/vision_fraud_detector.py]
    - [app/scrapers/facebook/search_scraper.py] (module [SearchScraper])
    - [app/scrapers/facebook/feed_scraper.py]   (module [FeedScraper])
    - [app/api/v1/threats.py]               (module [Threats])

    Python values are modelled as they are at run time: a [str] is a list of
    code points, a [float] is a binary64 number (Rocq's primitive floats), a
    [dict] is an insertion-ordered association list of dynamically typed
    values.  Library functions whose behaviour the pipeline does not define
    itself ([str.lower], [re.search], [re.sub], [json.loads], [float] on a
    string) are the fields of the class [PyLib]; every theorem holds for
    every implementation of them. *)

From Stdlib Require Import String Ascii DecimalString ZArith NArith Lia Bool List.
From Stdlib Require Import Floats.
Import ListNotations.
Set Warnings "-inexact-float,-register-all,-abstract-large-number".

(** ** Python values and built-ins *)

Module Py.

Definition codepoint := N.
Definition str := list codepoint.

(** Literals are written as UTF-8 text and decoded to code points. *)
Fixpoint utf8_decode (bs : list N) : str :=
  match bs with
  | [] => []
  | b :: r =>
    if (b <? 128)%N then b :: utf8_decode r
    else if (b <? 224)%N then
      match r with
      | c1 :: r1 => ((b - 192) * 64 + (c1 - 128))%N :: utf8_decode r1
      | _ => []
      end
    else if (b <? 240)%N then
      match r with
      | c1 :: c2 :: r2 =>
        ((b - 224) * 4096 + (c1 - 128) * 64 + (c2 - 128))%N :: utf8_decode r2
      | _ => []
      end
    else
      match r with
      | c1 :: c2 :: c3 :: r3 =>
        ((b - 240) * 262144 + (c1 - 128) * 4096 + (c2 - 128) * 64 + (c3 - 128))%N
          :: utf8_decode r3
      | _ => []
      end
  end.

Definition u (s : string) : str :=
  utf8_decode (map N_of_ascii (list_ascii_of_string s)).

Definition dquote : codepoint := 34%N.
Definition newline : codepoint := 10%N.

Fixpoint str_eqb (a b : str) : bool :=
  match a, b with
  | [], [] => true
  | x :: a', y :: b' => (x =? y)%N && str_eqb a' b'
  | _, _ => false
  end.

(** [s.startswith(p)] *)
Fixpoint startswith (p s : str) : bool :=
  match p, s with
  | [], _ => true
  | x :: p', y :: s' => (x =? y)%N && startswith p' s'
  | _ :: _, [] => false
  end.

(** [p in s] for two strings *)
Fixpoint str_in (p s : str) : bool :=
  startswith p s ||
  match s with
  | [] => false
  | _ :: s' => str_in p s'
  end.

(** [sep.join(l)] *)
Fixpoint join (sep : str) (l : list str) : str :=
  match l with
  | [] => []
  | [x] => x
  | x :: r => x ++ sep ++ join sep r
  end.

(** The code points for which [str.isspace] holds; [str.strip()] removes
    exactly these from both ends. *)
Definition isspace (c : codepoint) : bool :=
  ((9 <=? c) && (c <=? 13) || (28 <=? c) && (c <=? 32) || (c =? 133) || (c =? 160)
   || (c =? 5760) || (8192 <=? c) && (c <=? 8202) || (c =? 8232) || (c =? 8233)
   || (c =? 8239) || (c =? 8287) || (c =? 12288))%N.

Fixpoint lstrip (s : str) : str :=
  match s with
  | [] => []
  | c :: r => if isspace c then lstrip r else s
  end.

Definition rstrip (s : str) : str := rev' (lstrip (rev' s)).
Definition strip (s : str) : str := rstrip (lstrip s).

(** [s[:n]] *)
Definition slice_to (n : nat) {A : Type} (s : list A) : list A := firstn n s.

(** [str(n)] for a non-negative int *)
Definition str_of_nat (n : nat) : str :=
  map N_of_ascii (list_ascii_of_string (NilZero.string_of_uint (Nat.to_uint n))).

(** [str(z)] for an int *)
Definition str_of_int (z : Z) : str :=
  if (z <? 0)%Z then 45%N :: str_of_nat (Z.abs_nat z) else str_of_nat (Z.abs_nat z).

(** *** Floats *)

Open Scope float_scope.

(** [min(a, b)] and [max(a, b)] keep their first argument unless the second
    compares strictly below (above) it. *)
Definition pymin (a b : float) : float := if b <? a then b else a.
Definition pymax (a b : float) : float := if a <? b then b else a.

(** [a >= b] *)
Definition ge (a b : float) : bool := b <=? a.

(** [float(n)] for a list length *)
Definition float_of_len (n : nat) : float :=
  PrimFloat.of_uint63 (Uint63.of_Z (Z.of_nat n)).

(** [float(z)] for an int: rounded to nearest even, [OverflowError] when the
    int is too large. *)
Definition float_of_int (z : Z) : option float :=
  let f := SF2Prim (binary_normalize prec emax z 0 false) in
  if PrimFloat.is_infinity f then None else Some f.

Close Scope float_scope.

(** *** Dynamically typed values *)

Inductive pyval : Type :=
| PNone
| PBool (b : bool)
| PInt (z : Z)
| PFloat (f : float)
| PStr (s : str)
| PList (l : list pyval)
| PDict (d : list (str * pyval)).

Definition dict := list (str * pyval).

(** [d.get(k)]: [None] when the key is absent *)
Fixpoint get (k : str) (d : dict) : option pyval :=
  match d with
  | [] => None
  | (k', v) :: r => if str_eqb k k' then Some v else get k r
  end.

(** [d.get(k, default)] *)
Definition get_default (k : str) (default : pyval) (d : dict) : pyval :=
  match get k d with
  | Some v => v
  | None => default
  end.

Definition has_key (k : str) (d : dict) : bool :=
  match get k d with Some _ => true | None => false end.

(** The keys of a dict, each once. *)
Fixpoint keys (d : dict) : list str :=
  match d with
  | [] => []
  | (k, _) :: r => k :: filter (fun k' => negb (str_eqb k' k)) (keys r)
  end.

(** [bool(v)] *)
Definition truthy (v : pyval) : bool :=
  match v with
  | PNone => false
  | PBool b => b
  | PInt z => negb (z =? 0)%Z
  | PFloat f => negb (f =? 0)%float
  | PStr s => match s with [] => false | _ => true end
  | PList l => match l with [] => false | _ => true end
  | PDict d => match d with [] => false | _ => true end
  end.

(** [len(v)]; [None] is the [TypeError] of an object without a length. *)
Definition len (v : pyval) : option nat :=
  match v with
  | PStr s => Some (length s)
  | PList l => Some (length l)
  | PDict d => Some (length (keys d))
  | _ => None
  end.

(** [d[k] = v]: an existing key keeps its position *)
Fixpoint set_item (k : str) (v : pyval) (d : dict) : dict :=
  match d with
  | [] => [(k, v)]
  | (k', v') :: r => if str_eqb k k' then (k, v) :: r else (k', v') :: set_item k v r
  end.

(** [v == s] for a string literal [s] *)
Definition eq_str (v : pyval) (s : str) : bool :=
  match v with
  | PStr t => str_eqb t s
  | _ => false
  end.

(** [v in [s1, ..., sn]] for string literals *)
Definition in_strs (v : pyval) (l : list str) : bool :=
  existsb (eq_str v) l.

(** *** Exceptions *)

Inductive exn :=
| JSONDecodeError | ImportError | TypeError | ValueError | OverflowError
| AttributeError | KeyError | UnboundLocalError
| OtherException.   (* any other subclass of [Exception] *)

Inductive res (A : Type) : Type :=
| Ok (a : A)
| Raise (e : exn).
Arguments Ok {A} a.
Arguments Raise {A} e.

Definition bind {A B : Type} (r : res A) (k : A -> res B) : res B :=
  match r with
  | Ok a => k a
  | Raise e => Raise e
  end.

(** [d[k]] *)
Definition item (k : str) (d : dict) : res pyval :=
  match get k d with
  | Some v => Ok v
  | None => Raise KeyError
  end.

(** [len(v)] as an operation that may raise *)
Definition py_len (v : pyval) : res nat :=
  match len v with
  | Some n => Ok n
  | None => Raise TypeError
  end.

End Py.
Import Py.

Declare Scope py_scope.
Delimit Scope py_scope with py.
Notation "x <- e ;; k" := (bind e (fun x => k))
  (at level 61, e at next level, right associativity) : py_scope.

(** ** Library functions left abstract *)

Inductive re_flag := DOTALL | IGNORECASE.

Class PyLib : Type := {
  (** [s.lower()] *)
  lower : str -> str;
  (** [re.search(pattern, s)] finds a match *)
  re_search : str -> str -> bool;
  (** [re.sub(pattern, repl, s, flags=...)] *)
  re_sub : str -> str -> str -> list re_flag -> str;
  (** [json.loads(s)]; [None] is [json.JSONDecodeError] *)
  json_loads : str -> option pyval;
  (** [json.dumps(v)] *)
  json_dumps : pyval -> str;
  (** [float(s)] for a string; [None] is [ValueError] *)
  float_of_str : str -> option float;
  (** [str(v)] of a value that is not a string, as an f-string formats it *)
  str_of_value : pyval -> str
}.

(** ** [app/ai/fraud_detector.py]: the lexical and pattern scorer *)

Module FraudDetector.

Record pattern_rule := {
  name : str;
  pattern : str;
  weight : float;
  reason : str
}.

(** [_load_fraud_keywords] *)
Definition _load_fraud_keywords : list str := map u [
  (* Payment/Financial - English *)
  "advance payment"; "advance"; "upfront payment"; "send money"; "transfer money";
  "upi"; "paytm"; "phonepe"; "googlepay"; "gpay"; "payment first"; "pay now";
  "bank transfer"; "wire transfer"; "deposit now"; "booking amount";
  (* Tourism/Hotel - English *)
  "cheap hotel"; "hotel booking"; "cheap accommodation"; "discounted stay";
  "limited offer"; "book now"; "hurry"; "only few left"; "last rooms";
  "free trip"; "free stay"; "urgent booking"; "70% off"; "80% off"; "90% off";
  "luxury resort"; "beachfront"; "sea view"; "private pool";
  (* Urgency/Pressure *)
  "urgent"; "immediately"; "today only"; "expires today"; "last chance";
  "limited time"; "act now"; "don't miss"; "exclusive deal"; "special offer";
  (* Investment Scams *)
  "guaranteed returns"; "double your money"; "triple your investment";
  "risk-free"; "no risk"; "100% profit"; "passive income"; "work from home";
  "earn lakhs"; "earn crores"; "get rich quick"; "easy money";
  (* Marketplace/Trade *)
  "cash on delivery not available"; "advance only"; "no cod";
  "original product"; "brand new"; "sealed pack"; "factory price";
  "wholesale price"; "dealer price"; "imported"; "usa imported";
  (* Contact/Communication red flags *)
  "whatsapp only"; "call me"; "dm for details"; "inbox me";
  "telegram"; "chat now"; "message for price"; "serious buyers only";
  (* Hindi (Devanagari) *)
  "पैसे भेजो"; "एडवांस"; "बुकिंग"; "सस्ता होटल"; "मुफ्त";
  "तुरंत"; "आज ही"; "गारंटीड"; "रिटर्न"; "पैसा कमाएं";
  (* Marathi (Devanagari) *)
  "पैसे पाठवा"; "बुकिंग"; "स्वस्त"; "मोफत";
  (* Romanized Hindi/Marathi *)
  "paise bhejo"; "booking karo"; "sasta hotel"; "muft";
  "guarantee"; "paisa kamao"; "jaldi karo";
  (* Gambling *)
  "bet"; "betting"; "satta"; "matka"; "lottery"; "jackpot";
  "casino"; "poker"; "roulette"; "gambling"; "games"; "earn by playing";
  (* Prostitution (subtle detection) *)
  "massage service"; "escort"; "female companion"; "full service";
  "call girl"; "vip service"; "private service"; "24/7 available";
  (* Fake documents *)
  "fake certificate"; "duplicate"; "passport"; "driving license";
  "aadhaar"; "pan card"; "marksheet"; "degree certificate";
  (* Cryptocurrency scams *)
  "bitcoin"; "crypto"; "trading bot"; "forex"; "binary options";
  "mining"; "nft"; "web3"; "pump and dump"
]%string.

(** [_load_fraud_patterns] *)
Definition _load_fraud_patterns : list pattern_rule := [
  {| name := u "phone_number_in_text";
     pattern := u "\b\d{10}\b|\b\+91[\s-]?\d{10}\b";
     weight := 0.2;
     reason := u "Contains phone number (unusual for legitimate posts)" |};
  {| name := u "multiple_payment_methods";
     pattern := u "(upi|paytm|phonepe|googlepay|gpay|bhim)";
     weight := 0.15;
     reason := u "Mentions payment methods" |};
  {| name := u "excessive_discounts";
     pattern := u "([567890]\d%\s*(off|discount))|((off|discount)\s*[567890]\d%)";
     weight := 0.25;
     reason := u "Unrealistic discount (50%+ off)" |};
  {| name := u "urgency_pressure";
     pattern := u "(urgent|hurry|limited|today only|last chance|act now)";
     weight := 0.2;
     reason := u "Urgency/pressure tactics" |};
  {| name := u "guaranteed_returns";
     pattern := u "(guaranteed|100%|risk[- ]?free|double your money)";
     weight := 0.3;
     reason := u "Unrealistic guarantees" |}
]%float.

Section WithLib.
Context {lib : PyLib}.

(** [_classify_fraud_type(keywords, text)] *)
Definition _classify_fraud_type (keywords : list str) (text : str) : str :=
  let keyword_str := lower (join (u " ") keywords) in
  let any := existsb (fun k => str_in k keyword_str) in
  if any (map u ["hotel"; "booking"; "resort"; "stay"; "accommodation"]%string) then
    u "hotel_booking_scam"
  else if any (map u ["investment"; "returns"; "profit"; "earn"; "income"]%string) then
    u "investment_scam"
  else if any (map u ["lottery"; "jackpot"; "satta"; "bet"; "casino"]%string) then
    u "gambling_scam"
  else if any (map u ["massage"; "escort"; "companion"; "service"]%string) then
    u "prostitution_racket"
  else if any (map u ["certificate"; "passport"; "license"; "aadhaar"; "pan"]%string) then
    u "fake_documents"
  else if any (map u ["bitcoin"; "crypto"; "forex"; "trading"]%string) then
    u "cryptocurrency_scam"
  else if any (map u ["advance"; "payment"; "upi"; "transfer"]%string) then
    u "advance_payment_fraud"
  else
    u "suspicious_content".

(** [_generate_reasoning(keywords, patterns, score)] *)
Definition _generate_reasoning (keywords patterns : list str) (score : float) : str :=
  let parts : list str := [] in
  let parts :=
    match keywords with
    | [] => parts
    | _ =>
      let first := u "Detected " ++ str_of_nat (length keywords) ++ u " fraud keywords: "
                     ++ join (u ", ") (slice_to 5 keywords) in
      if (5 <? length keywords)%nat
      then parts ++ [first ++ u " and " ++ str_of_nat (length keywords - 5) ++ u " more"]
      else parts ++ [first]
    end in
  let parts :=
    match patterns with
    | [] => parts
    | _ => parts ++ [u "Matched " ++ str_of_nat (length patterns) ++ u " fraud patterns: "
                       ++ join (u ", ") patterns]
    end in
  let parts :=
    if ge score 0.7 then parts ++ [u "HIGH confidence fraud detection"]
    else if ge score 0.4 then parts ++ [u "Moderate fraud indicators present"]
    else parts ++ [u "Low fraud probability"] in
  join (u ". ") parts ++ u ".".

(** The keyword loop of [analyze_text]: one pass over the keyword list,
    appending each keyword whose lower-cased form occurs in the text. *)
Definition match_keywords (text_lower : str) : list str :=
  fold_left
    (fun matched_keywords keyword =>
       if str_in (lower keyword) text_lower
       then matched_keywords ++ [keyword]
       else matched_keywords)
    _load_fraud_keywords [].

(** The pattern loop of [analyze_text]: the state is the list of matched
    pattern names and the running [pattern_score]. *)
Definition match_patterns (text_lower : str) : list str * float :=
  fold_left
    (fun '(matched_patterns, pattern_score) pattern_dict =>
       if re_search (pattern pattern_dict) text_lower
       then (matched_patterns ++ [name pattern_dict],
             (pattern_score + weight pattern_dict)%float)
       else (matched_patterns, pattern_score))
    _load_fraud_patterns ([], 0.0%float).

(** [analyze_text(text)] *)
Definition analyze_text (text : str) : dict :=
  if negb (truthy (PStr text)) || (length (strip text) =? 0)%nat then
    [ (u "fraud_score", PFloat 0.0);
      (u "risk_level", PStr (u "LOW"));
      (u "fraud_type", PStr (u "none"));
      (u "matched_keywords", PList []);
      (u "matched_patterns", PList []);
      (u "reasoning", PStr (u "No content to analyze")) ]
  else
    let text_lower := lower text in
    (* 1. Keyword matching *)
    let matched_keywords := match_keywords text_lower in
    let keyword_score := pymin (float_of_len (length matched_keywords) * 0.15) 0.6 in
    (* 2. Pattern matching *)
    let '(matched_patterns, pattern_score) := match_patterns text_lower in
    let pattern_score := pymin pattern_score 0.4 in
    (* 3. Calculate final fraud score *)
    let fraud_score := (keyword_score + pattern_score)%float in
    let fraud_score := pymin fraud_score 1.0 in
    (* 4. Determine risk level *)
    let risk_level :=
      if ge fraud_score 0.7 then u "HIGH"
      else if ge fraud_score 0.4 then u "MEDIUM"
      else u "LOW" in
    (* 5. Classify fraud type *)
    let fraud_type := _classify_fraud_type matched_keywords text_lower in
    (* 6. Generate reasoning *)
    let reasoning := _generate_reasoning matched_keywords matched_patterns fraud_score in
    [ (u "fraud_score", PFloat fraud_score);
      (u "risk_level", PStr risk_level);
      (u "fraud_type", PStr fraud_type);
      (u "matched_keywords", PList (map PStr matched_keywords));
      (u "matched_patterns", PList (map PStr matched_patterns));
      (u "reasoning", PStr reasoning) ].

End WithLib.
End FraudDetector.

(** [float(v)]: a float is kept, an int or bool converted, a string parsed;
    anything else is a [TypeError]. *)
Definition py_float {lib : PyLib} (v : pyval) : res float :=
  match v with
  | PFloat f => Ok f
  | PInt z =>
    match float_of_int z with
    | Some f => Ok f
    | None => Raise OverflowError
    end
  | PBool b => Ok (if b then 1.0 else 0.0)%float
  | PStr s =>
    match float_of_str s with
    | Some f => Ok f
    | None => Raise ValueError
    end
  | PNone | PList _ | PDict _ => Raise TypeError
  end.

(** An int compared with a float, exactly (no conversion of the int). *)
Definition int_ge_float (z : Z) (f : float) : bool :=
  match Prim2SF f with
  | S754_nan => false
  | S754_infinity s => s
  | S754_zero _ => (0 <=? z)%Z
  | S754_finite s m e =>
    let v := if s then Z.neg m else Z.pos m in
    if (0 <=? e)%Z then (v * 2 ^ e <=? z)%Z else (v <=? z * 2 ^ (- e))%Z
  end.

(** [v >= f] for a float literal [f] *)
Definition py_ge (v : pyval) (f : float) : res bool :=
  match v with
  | PFloat x => Ok (ge x f)
  | PInt z => Ok (int_ge_float z f)
  | PBool b => Ok (int_ge_float (if b then 1 else 0) f)
  | PNone | PStr _ | PList _ | PDict _ => Raise TypeError
  end.

(** A value inside an f-string *)
Definition fmt {lib : PyLib} (v : pyval) : str :=
  match v with
  | PStr s => s
  | _ => str_of_value v
  end.

(** [s.replace(a, b)] for one-character strings *)
Definition replace_char (a b : codepoint) (s : str) : str :=
  map (fun c => if (c =? a)%N then b else c) s.

(** ** [app/ai/gpt_html_fraud_detector.py]: the GPT-4 HTML adapter *)

Module GPTHTMLFraudDetector.

(** What the OpenAI request of [analyze_post_html] does: it raises (a
    timeout, a connection or authentication failure, a rate limit, an empty
    [choices] list, ...) or yields [response.choices[0].message.content], a
    string or [None]. *)
Inductive completion :=
| Raises (ex : exn)
| Content (c : option str).

Record env := {
  (** [self.api_key] *)
  api_key : option str;
  (** [from openai import OpenAI] *)
  import_openai : res unit;
  (** [OpenAI(api_key=self.api_key)] *)
  openai_client : res unit;
  (** [client.chat.completions.create(...)] on the user prompt *)
  chat_completions_create : str -> completion
}.

(** How far the [try] block of [analyze_post_html] gets before it parses
    the reply: it returns early, or it has bound [result_text]. *)
Inductive reply :=
| Returned (r : dict)
| Bound (result_text : option str).

Definition q (s : string) : str := dquote :: u s ++ [dquote].

Section WithLib.
Context {lib : PyLib}.
Open Scope py_scope.

(** [_clean_html(html)] *)
Definition _clean_html (html : str) : str :=
  (* Remove script tags *)
  let html := re_sub (u "<script[^>]*>.*?</script>") [] html [DOTALL; IGNORECASE] in
  (* Remove style tags *)
  let html := re_sub (u "<style[^>]*>.*?</style>") [] html [DOTALL; IGNORECASE] in
  (* Remove comments *)
  let html := re_sub (u "<!--.*?-->") [] html [DOTALL] in
  (* Truncate if too long *)
  let max_length := 15000 in
  let html :=
    if max_length <? length html
    then slice_to max_length html ++ newline :: u "... [truncated]"
    else html in
  strip html.

(** [_build_fraud_prompt(html)] *)
Definition _build_fraud_prompt (html : str) : str :=
  join [newline] [
    u "Analyze this Facebook post content for fraud indicators.";
    [];
    u "POST CONTENT:";
    u "```";
    html;
    u "```";
    [];
    u "FRAUD INDICATORS TO CHECK:";
    u "- Scam keywords: advance payment, send money, UPI, Paytm, PhonePe, cheap hotel, free trip, guaranteed returns, limited offer, urgent";
    u "- Hindi/Marathi keywords: पैसे भेजो, बुकिंग, सस्ता, मुफ्त";
    u "- Phone numbers displayed";
    u "- Excessive discounts (50%+ off)";
    u "- Pressure tactics (urgent, limited time, act now)";
    u "- Multiple payment methods mentioned";
    u "- Too-good-to-be-true offers";
    [];
    u "EXTRACT:";
    u "- Author/username (from post HTML)";
    u "- Post text content (visible text only)";
    u "- Language (English/Hindi/Marathi/Mixed)";
    [];
    u "SCORING:";
    u "- 0.0-0.3: Legitimate";
    u "- 0.4-0.6: Suspicious";
    u "- 0.7-1.0: Fraud";
    [];
    u "Return ONLY valid JSON:";
    u "{";
    u "    " ++ q "is_fraud" ++ u ": true/false,";
    u "    " ++ q "fraud_score" ++ u ": 0.85,";
    u "    " ++ q "risk_level" ++ u ": " ++ q "HIGH" ++ u "/" ++ q "MEDIUM" ++ u "/" ++ q "LOW" ++ u ",";
    u "    " ++ q "fraud_type" ++ u ": " ++ q "hotel_booking_scam" ++ u "/" ++ q "investment_scam"
      ++ u "/" ++ q "advance_payment_fraud" ++ u "/" ++ q "legitimate" ++ u ",";
    u "    " ++ q "reasoning" ++ u ": " ++ q "brief explanation" ++ u ",";
    u "    " ++ q "username" ++ u ": " ++ q "extracted author name" ++ u ",";
    u "    " ++ q "content" ++ u ": " ++ q "extracted post text" ++ u ",";
    u "    " ++ q "language" ++ u ": " ++ q "eng" ++ u "/" ++ q "hin" ++ u "/" ++ q "mar" ++ u "/" ++ q "mixed" ++ u ",";
    u "    " ++ q "red_flags" ++ u ": [" ++ q "specific issues" ++ u "],";
    u "    " ++ q "matched_keywords" ++ u ": [" ++ q "fraud keywords found" ++ u "]";
    u "}";
    [];
    u "Be precise and factual."
  ].

(** [_normalize_analysis(analysis)]; [analysis.get] is an [AttributeError]
    on anything but a dict. *)
Definition _normalize_analysis (analysis : pyval) : res dict :=
  match analysis with
  | PDict analysis =>
    fraud_score <- py_float (get_default (u "fraud_score") (PFloat 0.0) analysis) ;;
    let normalized : dict := [
      (u "is_fraud", get_default (u "is_fraud") (PBool false) analysis);
      (u "fraud_score", PFloat fraud_score);
      (u "risk_level", get_default (u "risk_level") (PStr (u "LOW")) analysis);
      (u "fraud_type", get_default (u "fraud_type") (PStr (u "suspicious_content")) analysis);
      (u "reasoning", get_default (u "reasoning") (PStr (u "No analysis provided")) analysis);
      (u "username", get_default (u "username") PNone analysis);
      (u "content", get_default (u "content") (PStr []) analysis);
      (u "language", get_default (u "language") (PStr (u "unknown")) analysis);
      (u "red_flags", get_default (u "red_flags") (PList []) analysis);
      (u "matched_keywords", get_default (u "matched_keywords") (PList []) analysis)
    ] in
    (* Ensure fraud_score is in valid range *)
    let fraud_score := pymax 0.0 (pymin 1.0 fraud_score) in
    let normalized := set_item (u "fraud_score") (PFloat fraud_score) normalized in
    (* Ensure risk_level is valid *)
    risk_level <- item (u "risk_level") normalized ;;
    let normalized :=
      if negb (in_strs risk_level [u "HIGH"; u "MEDIUM"; u "LOW"]) then
        if ge fraud_score 0.7 then set_item (u "risk_level") (PStr (u "HIGH")) normalized
        else if ge fraud_score 0.4 then set_item (u "risk_level") (PStr (u "MEDIUM")) normalized
        else set_item (u "risk_level") (PStr (u "LOW")) normalized
      else normalized in
    Ok normalized
  | _ => Raise AttributeError
  end.

(** [_fallback_analysis()] *)
Definition _fallback_analysis : dict := [
  (u "is_fraud", PBool false);
  (u "fraud_score", PFloat 0.0);
  (u "risk_level", PStr (u "LOW"));
  (u "fraud_type", PStr (u "analysis_failed"));
  (u "reasoning", PStr (u "HTML analysis failed, treating as non-fraud for safety"));
  (u "username", PNone);
  (u "content", PStr []);
  (u "language", PStr (u "unknown"));
  (u "red_flags", PList []);
  (u "matched_keywords", PList [])
].

(** The [try] block of [analyze_post_html] up to the binding of
    [result_text]. *)
Definition analyze_post_html_request (e : env) (html : str) : res reply :=
  match import_openai e with
  | Raise ImportError =>
    (* except ImportError: return self._fallback_analysis() *)
    Ok (Returned _fallback_analysis)
  | Raise ex => Raise ex
  | Ok _ =>
    _ <- openai_client e ;;
    let cleaned_html := _clean_html html in
    if negb (truthy (PStr cleaned_html)) || (length cleaned_html <? 50) then
      Ok (Returned _fallback_analysis)
    else
      let prompt := _build_fraud_prompt cleaned_html in
      match chat_completions_create e prompt with
      | Raises ex => Raise ex
      | Content result_text => Ok (Bound result_text)
      end
  end.

(** The rest of the [try] block: the reply is parsed and normalised. *)
Definition analyze_post_html_parse (result_text : option str) : res dict :=
  match result_text with
  | None => Raise TypeError       (* result_text[:200] on None *)
  | Some result_text =>
    analysis <- match json_loads result_text with
                | Some v => Ok v
                | None => Raise JSONDecodeError
                end ;;
    normalized <- _normalize_analysis analysis ;;
    Ok normalized
  end.

(** [analyze_post_html(html)]. The handler of [json.JSONDecodeError] logs
    [result_text[:200]]: when the exception was raised before [result_text]
    was bound, the handler itself raises [UnboundLocalError], which leaves
    the function. *)
Definition analyze_post_html (e : env) (html : str) : res dict :=
  if negb (match api_key e with Some k => truthy (PStr k) | None => false end) then
    Ok _fallback_analysis
  else
    match analyze_post_html_request e html with
    | Ok (Returned r) => Ok r
    | Ok (Bound result_text) =>
      match analyze_post_html_parse result_text with
      | Ok normalized => Ok normalized
      | Raise JSONDecodeError => Ok _fallback_analysis
      | Raise _ => Ok _fallback_analysis
      end
    | Raise JSONDecodeError => Raise UnboundLocalError
    | Raise _ => Ok _fallback_analysis
    end.

End WithLib.
End GPTHTMLFraudDetector.

(** ** [app/ai/gpt_vision_fraud_detector.py]: the GPT-4 Vision adapter *)

Module GPTVisionFraudDetector.

Record env := {
  (** [self.api_key] *)
  api_key : option str;
  (** [from openai import OpenAI] *)
  import_openai : res unit;
  (** [OpenAI(api_key=self.api_key)] *)
  openai_client : res unit;
  (** [open(image_path, 'rb')], [read] and [base64.b64encode]: the encoded
      image, or the exception raised ([FileNotFoundError] is one of
      [OtherException]) *)
  read_image : str -> res str;
  (** [client.chat.completions.create(...)] on the encoded image *)
  chat_completions_create : str -> GPTHTMLFraudDetector.completion
}.

Section WithLib.
Context {lib : PyLib}.
Open Scope py_scope.

(** [_normalize_analysis]: the same statements as in the HTML adapter. *)
Definition _normalize_analysis : pyval -> res dict :=
  GPTHTMLFraudDetector._normalize_analysis.

(** [_fallback_analysis()] *)
Definition _fallback_analysis : dict := [
  (u "is_fraud", PBool false);
  (u "fraud_score", PFloat 0.0);
  (u "risk_level", PStr (u "LOW"));
  (u "fraud_type", PStr (u "analysis_failed"));
  (u "reasoning", PStr (u "Vision analysis failed, treating as non-fraud for safety"));
  (u "username", PNone);
  (u "content", PStr []);
  (u "language", PStr (u "unknown"));
  (u "red_flags", PList []);
  (u "matched_keywords", PList [])
].

(** The [try] block of [analyze_screenshot] up to the binding of
    [result_text]. *)
Definition analyze_screenshot_request (e : env) (image_path : str)
    : res GPTHTMLFraudDetector.reply :=
  match import_openai e with
  | Raise ImportError => Ok (GPTHTMLFraudDetector.Returned _fallback_analysis)
  | Raise ex => Raise ex
  | Ok _ =>
    _ <- openai_client e ;;
    image_data <- read_image e image_path ;;
    match chat_completions_create e image_data with
    | GPTHTMLFraudDetector.Raises ex => Raise ex
    | GPTHTMLFraudDetector.Content result_text =>
      Ok (GPTHTMLFraudDetector.Bound result_text)
    end
  end.

(** The rest of the [try] block. *)
Definition analyze_screenshot_parse (result_text : option str) : res dict :=
  match result_text with
  | None => Raise TypeError       (* result_text[:200] on None *)
  | Some result_text =>
    analysis <- match json_loads result_text with
                | Some v => Ok v
                | None => Raise JSONDecodeError
                end ;;
    normalized <- _normalize_analysis analysis ;;
    Ok normalized
  end.

(** [analyze_screenshot(image_path)]; the handler of [json.JSONDecodeError]
    reads [result_text] as in the HTML adapter. *)
Definition analyze_screenshot (e : env) (image_path : str) : res dict :=
  if negb (match api_key e with Some k => truthy (PStr k) | None => false end) then
    Ok _fallback_analysis
  else
    match analyze_screenshot_request e image_path with
    | Ok (GPTHTMLFraudDetector.Returned r) => Ok r
    | Ok (GPTHTMLFraudDetector.Bound result_text) =>
      match analyze_screenshot_parse result_text with
      | Ok normalized => Ok normalized
      | Raise JSONDecodeError => Ok _fallback_analysis
      | Raise _ => Ok _fallback_analysis
      end
    | Raise JSONDecodeError => Raise UnboundLocalError
    | Raise _ => Ok _fallback_analysis
    end.

End WithLib.
End GPTVisionFraudDetector.

(** ** [app/ai/vision_fraud_detector.py]: the local (Ollama) vision adapter *)

Module VisionFraudDetector.

(** What [requests.post(..., timeout=180)] does. *)
Inductive http_outcome :=
| ConnectionError            (* requests.exceptions.ConnectionError *)
| RequestRaises              (* a timeout or any other exception *)
| Response (status_code : Z) (json : res pyval).   (* [response.json()] *)

Record env := {
  read_image : str -> res str;
  requests_post : str -> http_outcome
}.

Section WithLib.
Context {lib : PyLib}.
Open Scope py_scope.

Definition _normalize_analysis : pyval -> res dict :=
  GPTHTMLFraudDetector._normalize_analysis.

Definition _fallback_analysis : dict := GPTVisionFraudDetector._fallback_analysis.

Definition analyze_screenshot_try (e : env) (image_path : str) : res dict :=
  image_data <- read_image e image_path ;;
  match requests_post e image_data with
  | ConnectionError => Raise OtherException
  | RequestRaises => Raise OtherException
  | Response status_code json =>
    if negb (status_code =? 200)%Z then Ok _fallback_analysis
    else
      result <- json ;;
      llm_output <- match result with
                    | PDict d => Ok (get_default (u "response") (PStr []) d)
                    | _ => Raise AttributeError
                    end ;;
      match llm_output with
      | PStr llm_output =>
        match json_loads llm_output with
        | Some analysis => _normalize_analysis analysis
        | None => Ok _fallback_analysis    (* except json.JSONDecodeError *)
        end
      | _ => Raise TypeError               (* json.loads of a non-string *)
      end
  end.

(** [analyze_screenshot(image_path)] *)
Definition analyze_screenshot (e : env) (image_path : str) : dict :=
  match analyze_screenshot_try e image_path with
  | Ok r => r
  | Raise _ => _fallback_analysis
  end.

End WithLib.
End VisionFraudDetector.

(** ** The persistence interface of the scrapers *)

Inductive sink_call :=
| store_post (post_data : dict)                        (* SearchScraper._store_post *)
| create_fraud_alert (post_data fraud_result : dict)   (* SearchScraper._create_fraud_alert *)
| store_fraud_post (post ai_result : dict).            (* FeedScraper._store_fraud_post *)

Definition is_store_post (c : sink_call) : bool :=
  match c with
  | store_post _ | store_fraud_post _ _ => true
  | create_fraud_alert _ _ => false
  end.

Definition is_create_alert (c : sink_call) : bool :=
  match c with
  | create_fraud_alert _ _ => true
  | _ => false
  end.

(** ** [app/scrapers/facebook/search_scraper.py]: the keyword-search pipeline *)

Module SearchScraper.

(** What the browser and the clock give for one [div[role="article"]]. *)
Record post_element := {
  (** [_is_sponsored_post(post_element)] (it catches its own exceptions) *)
  is_sponsored : bool;
  (** [post_element.inner_html()] *)
  inner_html : res str;
  (** test mode: writing the text file succeeds *)
  save_ok : bool;
  (** the environment of [self.html_detector] during this analysis *)
  detector : GPTHTMLFraudDetector.env;
  (** [datetime.now().strftime("%Y%m%d_%H%M%S")] *)
  strftime_now : str;
  (** [datetime.now().isoformat()] *)
  isoformat_now : str
}.

Record env := {
  test_mode : bool;
  (** [str(self.screenshots_dir)] *)
  screenshots_dir : str;
  (** BeautifulSoup: parse, drop script, style and svg, [get_text] *)
  soup_get_text : str -> res str
}.

(** The local variables of the loop of [_search_keyword], and the calls made
    to the storing functions so far. *)
Record state := {
  posts : list dict;
  screenshot_count : nat;
  ads_skipped : nat;
  fraud_count : nat;
  legitimate_count : nat;
  sink : list sink_call
}.

Definition init : state :=
  {| posts := []; screenshot_count := 0; ads_skipped := 0; fraud_count := 0;
     legitimate_count := 0; sink := [] |}.

Section WithLib.
Context {lib : PyLib}.
Open Scope py_scope.

(** [_extract_text_from_html(html)] *)
Definition _extract_text_from_html (e : env) (html : str) : str :=
  match soup_get_text e html with
  | Ok text =>
    (* Clean up whitespace *)
    let text := re_sub (u "\s+") (u " ") text [] in
    strip text
  | Raise _ => html
  end.

(** Lines 367-404: the content check and the construction of [post_data].
    [Ok None] is the [continue] of the content check; the boolean is
    [fraud_result['fraud_score'] >= 0.5]. *)
Definition build_post_data (e : env) (keyword : str) (idx : nat) (el : post_element)
    (fraud_result : dict) : res (option (dict * bool)) :=
  (* Check if we got meaningful content *)
  content <- item (u "content") fraud_result ;;
  if negb (truthy content) then Ok None else
  n <- py_len content ;;
  if n <? 20 then Ok None else
  username <- item (u "username") fraud_result ;;
  language <- item (u "language") fraud_result ;;
  (* Generate screenshot filename for storage *)
  let timestamp := strftime_now el in
  let keyword_safe :=
    slice_to 30 (replace_char 47 95 (replace_char 32 95 keyword))%N in
  let screenshot_filename :=
    u "fb_search_" ++ keyword_safe ++ u "_" ++ timestamp ++ u "_" ++ str_of_nat idx
      ++ u ".png" in
  let screenshot_path := screenshots_dir e ++ u "/" ++ screenshot_filename in
  (* Build post data from HTML AI analysis *)
  fraud_score <- item (u "fraud_score") fraud_result ;;
  is_fraud <- py_ge fraud_score 0.5 ;;
  risk_level <- item (u "risk_level") fraud_result ;;
  fraud_type <- item (u "fraud_type") fraud_result ;;
  matched_keywords <- item (u "matched_keywords") fraud_result ;;
  red_flags <- item (u "red_flags") fraud_result ;;
  reasoning <- item (u "reasoning") fraud_result ;;
  let post_data : dict := [
    (u "keyword", PStr keyword);
    (u "screenshot_path", if is_fraud then PStr screenshot_path else PNone);
    (u "screenshot_filename", if is_fraud then PStr screenshot_filename else PNone);
    (u "username", username);
    (u "content", content);
    (u "language", language);
    (u "fraud_score", fraud_score);
    (u "risk_level", risk_level);
    (u "fraud_type", fraud_type);
    (u "matched_keywords", matched_keywords);
    (u "red_flags", red_flags);
    (u "reasoning", reasoning);
    (u "timestamp", PStr (isoformat_now el))
  ] in
  Ok (Some (post_data, is_fraud)).

(** Lines 406-423: the post is appended to the returned list, and stored
    and alerted only when it is fraud. *)
Definition retain (post_data fraud_result : dict) (is_fraud : bool) (st : state) : state :=
  let st :=
    {| posts := posts st ++ [post_data];
       screenshot_count := S (screenshot_count st);
       ads_skipped := ads_skipped st;
       fraud_count := fraud_count st;
       legitimate_count := legitimate_count st;
       sink := sink st |} in
  (* ONLY store fraud posts (fraud_score >= 0.5) *)
  if is_fraud then
    {| posts := posts st;
       screenshot_count := screenshot_count st;
       ads_skipped := ads_skipped st;
       fraud_count := S (fraud_count st);
       legitimate_count := legitimate_count st;
       sink := sink st ++ [store_post post_data; create_fraud_alert post_data fraud_result] |}
  else
    {| posts := posts st;
       screenshot_count := screenshot_count st;
       ads_skipped := ads_skipped st;
       fraud_count := fraud_count st;
       legitimate_count := S (legitimate_count st);
       sink := sink st |}.

(** One iteration of the loop after the [break] test; an exception is the
    [continue] of the [except] clause. *)
Definition process_post (e : env) (keyword : str) (idx : nat) (el : post_element)
    (st : state) : state :=
  if is_sponsored el then
    {| posts := posts st;
       screenshot_count := screenshot_count st;
       ads_skipped := S (ads_skipped st);
       fraud_count := fraud_count st;
       legitimate_count := legitimate_count st;
       sink := sink st |}
  else
    match inner_html el with
    | Raise _ => st
    | Ok html =>
      if negb (truthy (PStr html)) || (length html <? 100) then st
      else
        let clean_text := _extract_text_from_html e html in
        if negb (truthy (PStr clean_text)) || (length clean_text <? 50) then st
        else if test_mode e then
          if save_ok el then
            {| posts := posts st;
               screenshot_count := S (screenshot_count st);
               ads_skipped := ads_skipped st;
               fraud_count := fraud_count st;
               legitimate_count := legitimate_count st;
               sink := sink st |}
          else st
        else
          (* PRODUCTION MODE: Analyze clean text with GPT-4 text API *)
          match GPTHTMLFraudDetector.analyze_post_html (detector el) clean_text with
          | Raise _ => st
          | Ok fraud_result =>
            match build_post_data e keyword idx el fraud_result with
            | Raise _ => st
            | Ok None => st
            | Ok (Some (post_data, is_fraud)) => retain post_data fraud_result is_fraud st
            end
          end
    end.

(** [for idx, post_element in enumerate(post_elements[:max_posts * 3])] *)
Fixpoint loop (e : env) (keyword : str) (max_posts : nat) (idx : nat)
    (post_elements : list post_element) (st : state) : state :=
  match post_elements with
  | [] => st
  | el :: rest =>
    (* Skip if we have enough posts *)
    if max_posts <=? screenshot_count st then st
    else loop e keyword max_posts (S idx) rest (process_post e keyword idx el st)
  end.

(** [_search_keyword(keyword, max_posts)] from the point where the post
    elements have been found; [page] is [Raise] when the navigation, the
    search box or the scrolling fails (the function then returns []). The
    result is the returned list with the calls made to the storing
    functions. *)
Definition _search_keyword (e : env) (page : res (list post_element))
    (keyword : str) (max_posts : nat) : list dict * list sink_call :=
  match page with
  | Raise _ => ([], [])
  | Ok post_elements =>
    let st := loop e keyword max_posts 0 (slice_to (max_posts * 3) post_elements) init in
    (posts st, sink st)
  end.

(** [post_data.get('screenshot_filename') or f"html_{post_data['timestamp']}"] *)
Definition source_id (post_data : dict) : res pyval :=
  let f := get_default (u "screenshot_filename") PNone post_data in
  if truthy f then Ok f
  else
    timestamp <- item (u "timestamp") post_data ;;
    Ok (PStr (u "html_" ++ fmt timestamp)).

(** The parameters [_store_post] binds in its INSERT into
    [ai_scraped_posts], evaluated in the order of the dict display. *)
Definition _store_post_params (post_data : dict) : res dict :=
  platform_id <- source_id post_data ;;
  keyword <- item (u "keyword") post_data ;;
  username <- item (u "username") post_data ;;
  content <- item (u "content") post_data ;;
  media_urls <-
    (if truthy (get_default (u "screenshot_path") PNone post_data) then
       screenshot_path <- item (u "screenshot_path") post_data ;;
       Ok (json_dumps (PList [screenshot_path]))
     else Ok (json_dumps (PList []))) ;;
  timestamp <- item (u "timestamp") post_data ;;
  fraud_score <- item (u "fraud_score") post_data ;;
  risk_level <- item (u "risk_level") post_data ;;
  fraud_type <- item (u "fraud_type") post_data ;;
  matched_keywords <- item (u "matched_keywords") post_data ;;
  red_flags <- item (u "red_flags") post_data ;;
  reasoning <- item (u "reasoning") post_data ;;
  language <- item (u "language") post_data ;;
  is_fraudulent <- py_ge fraud_score 0.5 ;;
  Ok [
    (u "platform", PStr (u "facebook_search"));
    (u "platform_id", platform_id);
    (u "group_id", PStr (u "search_" ++ fmt keyword));
    (u "group_name", PStr (u "Search: " ++ fmt keyword));
    (u "author_name", username);
    (u "content", content);
    (u "media_urls", PStr media_urls);
    (u "timestamp", timestamp);
    (u "scraped_at", timestamp);
    (u "processed", PBool true);
    (u "ai_analysis_result", PStr (json_dumps (PDict [
       (u "fraud_score", fraud_score);
       (u "risk_level", risk_level);
       (u "fraud_type", fraud_type);
       (u "matched_keywords", matched_keywords);
       (u "red_flags", red_flags);
       (u "reasoning", reasoning);
       (u "language", language);
       (u "analysis_method", PStr (u "html_ai")) ])));
    (u "fraud_confidence", fraud_score);
    (u "is_fraudulent", PBool is_fraudulent)
  ].

(** The parameters [_create_fraud_alert] binds in its INSERT into
    [ai_fraud_alerts], evaluated in the order of the dict display. *)
Definition _create_fraud_alert_params (post_data fraud_result : dict) : res dict :=
  source_id <- source_id post_data ;;
  content <- item (u "content") post_data ;;
  confidence_score <- item (u "fraud_score") fraud_result ;;
  risk_level <- item (u "risk_level") fraud_result ;;
  fraud_type <- item (u "fraud_type") fraud_result ;;
  matched_keywords <- item (u "matched_keywords") fraud_result ;;
  keyword <- item (u "keyword") post_data ;;
  username <- item (u "username") post_data ;;
  language <- item (u "language") post_data ;;
  red_flags <- item (u "red_flags") post_data ;;
  reasoning <- item (u "reasoning") post_data ;;
  Ok [
    (u "source_platform", PStr (u "facebook_search"));
    (u "source_id", source_id);
    (u "content_text", content);
    (u "confidence_score", confidence_score);
    (u "risk_level", risk_level);
    (u "fraud_type", fraud_type);
    (u "detected_keywords", PStr (json_dumps matched_keywords));
    (u "ai_metadata", PStr (json_dumps (PDict [
       (u "keyword_searched", keyword);
       (u "username", username);
       (u "screenshot_path", get_default (u "screenshot_path") PNone post_data);
       (u "language", language);
       (u "red_flags", red_flags);
       (u "reasoning", reasoning);
       (u "analysis_method", PStr (u "html_ai")) ])));
    (u "status", PStr (u "open"))
  ].

End WithLib.
End SearchScraper.

(** ** [app/scrapers/facebook/feed_scraper.py]: batch processing of the feed *)

Module FeedScraper.

(** What the database does during one call of [_store_fraud_post]. *)
Inductive db_outcome :=
| Inserted (post_id : pyval)   (* execute, commit and fetchone succeed *)
| ExecuteFails                 (* an exception after the session was obtained *)
| NoSession.                   (* [next(get_db())] raises: [db] is never bound *)

Record env := {
  (** the outcome of the n-th call of [_store_fraud_post], counted from 0 *)
  db : nat -> db_outcome;
  (** [datetime.now()] *)
  now : pyval;
  (** [datetime.now().timestamp()] formatted *)
  now_timestamp : str
}.

(** [s.split("/")[-1]] *)
Definition last_segment (s : str) : str :=
  let fix take (r : str) : str :=
    match r with
    | [] => []
    | c :: r' => if (c =? 47)%N then [] else c :: take r'
    end in
  rev (take (rev s)).

Section WithLib.
Context {lib : PyLib}.
Open Scope py_scope.

(** The parameters [_store_fraud_post] binds in its INSERT into
    [ai_scraped_posts]. *)
Definition _store_fraud_post_params (e : env) (post ai_result : dict) : res dict :=
  platform_id <-
    (if truthy (get_default (u "post_url") PNone post) then
       match get_default (u "post_url") (PStr []) post with
       | PStr url => Ok (PStr (last_segment url))
       | _ => Raise AttributeError
       end
     else Ok (PStr (u "feed_" ++ now_timestamp e))) ;;
  Ok [
    (u "platform", PStr (u "facebook"));
    (u "platform_id", platform_id);
    (u "group_id", PStr (u "feed"));
    (u "group_name", PStr (u "Facebook Feed"));
    (u "author_name", get_default (u "author_name") PNone post);
    (u "author_profile_url", get_default (u "author_profile_url") PNone post);
    (u "author_profile_image", get_default (u "author_profile_image") PNone post);
    (u "content", get_default (u "content") PNone post);
    (u "media_urls", get_default (u "images") (PList []) post);
    (u "post_url", get_default (u "post_url") PNone post);
    (u "post_type", PStr (u "feed"));
    (u "timestamp", now e);
    (u "scraped_at", now e);
    (u "is_fraudulent", PBool true);
    (u "fraud_confidence", get_default (u "fraud_score") (PFloat 0.0) ai_result);
    (u "ai_analysis_result", PDict ai_result);
    (u "fraud_reasons", get_default (u "matched_keywords") (PList []) ai_result);
    (u "processed", PBool true)
  ].

(** [_store_fraud_post(post, ai_result)]: the returned id, [None] after a
    rollback, or the [UnboundLocalError] of [db.rollback()] in the handler
    when no session was obtained. *)
Definition _store_fraud_post (e : env) (o : db_outcome) (post ai_result : dict)
    : res pyval :=
  match o with
  | NoSession => Raise UnboundLocalError
  | ExecuteFails => Ok PNone
  | Inserted post_id =>
    match _store_fraud_post_params e post ai_result with
    | Ok _ => Ok post_id
    | Raise _ => Ok PNone
    end
  end.

(** The loop of [_process_batch_with_ai]; an exception leaves the loop and
    the function returns the posts kept so far. *)
Fixpoint batch_loop (e : env) (posts : list dict) (fraud_posts : list dict)
    (sink : list sink_call) : list dict * list sink_call :=
  match posts with
  | [] => (fraud_posts, sink)
  | post :: rest =>
    (* Get post content *)
    let content := get_default (u "content") (PStr []) post in
    if negb (truthy content) then batch_loop e rest fraud_posts sink
    else
      match content with
      | PStr text =>
        (* AI Analysis *)
        let ai_result := FraudDetector.analyze_text text in
        let fraud_score := get_default (u "fraud_score") (PFloat 0.0) ai_result in
        (* Check if fraud (threshold: 0.5) *)
        match py_ge fraud_score 0.5 with
        | Raise _ => (fraud_posts, sink)
        | Ok true =>
          (* Store in database *)
          let sink' := sink ++ [store_fraud_post post ai_result] in
          match _store_fraud_post e (db e (length sink)) post ai_result with
          | Raise _ => (fraud_posts, sink')
          | Ok fraud_post_id =>
            if truthy fraud_post_id then
              let post := set_item (u "fraud_post_id") fraud_post_id post in
              let post := set_item (u "ai_analysis") (PDict ai_result) post in
              batch_loop e rest (fraud_posts ++ [post]) sink'
            else batch_loop e rest fraud_posts sink'
          end
        | Ok false => batch_loop e rest fraud_posts sink
        end
      | _ => (fraud_posts, sink)   (* [text.strip] on a value that is not a string *)
      end
  end.

(** [_process_batch_with_ai(posts)], with the calls made to
    [_store_fraud_post]. *)
Definition _process_batch_with_ai (e : env) (posts : list dict)
    : list dict * list sink_call :=
  batch_loop e posts [] [].

End WithLib.
End FeedScraper.

(** ** [app/api/v1/threats.py]: the status update of a fraud alert *)

Module Threats.

(** A row of [ai_fraud_alerts]: the two columns the update reads or writes,
    and the others. *)
Record alert := {
  id : Z;
  status : str;
  columns : dict
}.

Record ApiResponse := {
  success : bool;
  data : option dict;
  error : option str
}.

(** What the session does during the request. *)
Inductive db_behaviour :=
| Works
| ExecuteRaises (message : str)
| CommitRaises (message : str).

(** [Query(..., regex=...)] of the [status] parameter *)
Definition status_regex : str := u "^(open|investigating|resolved)$".

(** [UPDATE ai_fraud_alerts SET status = :status WHERE id = :threat_id] *)
Definition sql_update (table : list alert) (threat_id : Z) (new_status : str)
    : list alert :=
  map (fun a => if (id a =? threat_id)%Z
                then {| id := id a; status := new_status; columns := columns a |}
                else a) table.

(** [RETURNING id] followed by [fetchone()] *)
Definition returning (table : list alert) (threat_id : Z) : option Z :=
  match filter (fun a => (id a =? threat_id)%Z) table with
  | a :: _ => Some (id a)
  | [] => None
  end.

(** [update_threat_status(threat_id, status, db)]: the table after the
    request and the response. *)
Definition update_threat_status (db : db_behaviour) (table : list alert)
    (threat_id : Z) (new_status : str) : list alert * ApiResponse :=
  match db with
  | Works =>
    let updated := returning table threat_id in
    (sql_update table threat_id new_status,
     match updated with
     | Some i =>
       {| success := true;
          data := Some [(u "id", PInt i); (u "status", PStr new_status)];
          error := None |}
     | None =>
       {| success := false;
          data := None;
          error := Some (u "Threat " ++ str_of_int threat_id ++ u " not found") |}
     end)
  | ExecuteRaises message | CommitRaises message =>
    (* db.rollback() *)
    (table,
     {| success := false;
        data := None;
        error := Some (u "Failed to update threat status: " ++ message) |})
  end.

(** The route: the request reaches the handler only when the [status] query
    parameter passes its regex (otherwise FastAPI answers 422). *)
Definition put_threat_status {lib : PyLib} (db : db_behaviour) (table : list alert)
    (threat_id : Z) (new_status : str) : option (list alert * ApiResponse) :=
  if re_search status_regex new_status
  then Some (update_threat_status db table threat_id new_status)
  else None.

(** The order the specification gives to the three statuses. *)
Definition rank (s : str) : option nat :=
  if str_eqb s (u "open") then Some 0
  else if str_eqb s (u "investigating") then Some 1
  else if str_eqb s (u "resolved") then Some 2
  else None.

Definition status_of (table : list alert) (threat_id : Z) : option str :=
  match filter (fun a => (id a =? threat_id)%Z) table with
  | a :: _ => Some (status a)
  | [] => None
  end.

End Threats.

(** ** An implementation of the library functions for concrete runs

    [Demo.lib] agrees with CPython on ASCII text for the patterns of
    [FraudDetector._load_fraud_patterns], of [_clean_html] and of
    [_extract_text_from_html], and on the response texts listed in
    [Demo.responses].  It serves to run the pipeline on concrete inputs;
    no theorem below depends on it except those that name it. *)

Module Demo.

Definition is_digit (c : codepoint) : bool := ((48 <=? c) && (c <=? 57))%N.
Definition is_upper (c : codepoint) : bool := ((65 <=? c) && (c <=? 90))%N.
Definition is_lower (c : codepoint) : bool := ((97 <=? c) && (c <=? 122))%N.
Definition is_word (c : codepoint) : bool :=
  is_digit c || is_upper c || is_lower c || (c =? 95)%N.
Definition is_ws (c : codepoint) : bool := ((9 <=? c) && (c <=? 13) || (c =? 32))%N.

Definition ascii_lower (s : str) : str :=
  map (fun c => if is_upper c then (c + 32)%N else c) s.

(** [s] starts with [n] digits: what follows them *)
Fixpoint digits (n : nat) (s : str) : option str :=
  match n with
  | O => Some s
  | S n' =>
    match s with
    | c :: r => if is_digit c then digits n' r else None
    | [] => None
    end
  end.

(** [\b] after a word character: no word character follows *)
Definition word_end (s : str) : bool :=
  match s with
  | c :: _ => negb (is_word c)
  | [] => true
  end.

Fixpoint skip_ws (s : str) : str :=
  match s with
  | c :: r => if is_ws c then skip_ws r else s
  | [] => []
  end.

(** Some position of [s] satisfies [at_pos prev rest], [prev] being the
    character before the position. *)
Fixpoint anywhere (at_pos : option codepoint -> str -> bool)
    (prev : option codepoint) (s : str) : bool :=
  at_pos prev s ||
  match s with
  | c :: r => anywhere at_pos (Some c) r
  | [] => false
  end.

(** [\b\d{10}\b|\b\+91[\s-]?\d{10}\b] *)
Definition phone_at (prev : option codepoint) (s : str) : bool :=
  let prev_word := match prev with Some c => is_word c | None => false end in
  (negb prev_word &&
   match digits 10 s with Some r => word_end r | None => false end)
  ||
  (prev_word && startswith (u "+91") s &&
   let r := skipn 3 s in
   let r := match r with
            | c :: r' => if is_ws c || (c =? 45)%N then r' else r
            | [] => r
            end in
   match digits 10 r with Some r' => word_end r' | None => false end).

Definition high_digit (c : codepoint) : bool :=
  ((c =? 53) || (c =? 54) || (c =? 55) || (c =? 56) || (c =? 57) || (c =? 48))%N.

Definition off_or_discount (s : str) : option str :=
  if startswith (u "off") s then Some (skipn 3 s)
  else if startswith (u "discount") s then Some (skipn 8 s)
  else None.

Definition percent (s : str) : option str :=
  match s with
  | c1 :: c2 :: 37%N :: r => if high_digit c1 && is_digit c2 then Some r else None
  | _ => None
  end.

(** [([567890]\d%\s*(off|discount))|((off|discount)\s*[567890]\d%)] *)
Definition discount_at (_ : option codepoint) (s : str) : bool :=
  match percent s with
  | Some r => match off_or_discount (skip_ws r) with Some _ => true | None => false end
  | None => false
  end
  ||
  match off_or_discount s with
  | Some r => match percent (skip_ws r) with Some _ => true | None => false end
  | None => false
  end.

Definition any_of (words : list string) (s : str) : bool :=
  existsb (fun w => str_in (u w) s) words.

Definition demo_re_search (pat s : str) : bool :=
  if str_eqb pat (u "\b\d{10}\b|\b\+91[\s-]?\d{10}\b") then anywhere phone_at None s
  else if str_eqb pat (u "(upi|paytm|phonepe|googlepay|gpay|bhim)") then
    any_of ["upi"; "paytm"; "phonepe"; "googlepay"; "gpay"; "bhim"]%string s
  else if str_eqb pat
            (u "([567890]\d%\s*(off|discount))|((off|discount)\s*[567890]\d%)") then
    anywhere discount_at None s
  else if str_eqb pat (u "(urgent|hurry|limited|today only|last chance|act now)") then
    any_of ["urgent"; "hurry"; "limited"; "today only"; "last chance"; "act now"]%string s
  else if str_eqb pat (u "(guaranteed|100%|risk[- ]?free|double your money)") then
    any_of ["guaranteed"; "100%"; "riskfree"; "risk-free"; "risk free";
            "double your money"]%string s
  else if str_eqb pat Threats.status_regex then
    existsb (str_eqb s)
      (map u ["open"; "investigating"; "resolved"]%string
       ++ map (fun w => u w ++ [newline]) ["open"; "investigating"; "resolved"]%string)
  else false.

(** What follows the first occurrence of [p] in [s], letters compared
    without case when [nocase]. *)
Fixpoint after_first (nocase : bool) (p s : str) : option str :=
  if startswith p (if nocase then ascii_lower (firstn (length p) s) else s)
  then Some (skipn (length p) s)
  else
    match s with
    | _ :: r => after_first nocase p r
    | [] => None
    end.

(** [re.sub] of [<tag[^>]*>.*?</tag>] (case-insensitive, [nocase]) or of
    [<!--.*?-->] by the empty string: every leftmost block from an opener
    to the first closer after it is removed. *)
Fixpoint remove_blocks (fuel : nat) (nocase : bool) (opener : str) (tag : bool)
    (closer : str) (s : str) : str :=
  match fuel with
  | O => s
  | S fuel' =>
    match s with
    | [] => []
    | c :: r =>
      let head := if nocase then ascii_lower (firstn (length opener) s) else firstn (length opener) s in
      let inside :=
        if str_eqb head opener then
          let r1 := skipn (length opener) s in
          if tag then after_first false (u ">") r1 else Some r1
        else None in
      match match inside with Some body => after_first nocase closer body | None => None end with
      | Some rest => remove_blocks fuel' nocase opener tag closer rest
      | None => c :: remove_blocks fuel' nocase opener tag closer r
      end
    end
  end.

(** [re.sub(r'\s+', ' ', s)] *)
Fixpoint collapse_ws (in_ws : bool) (s : str) : str :=
  match s with
  | [] => []
  | c :: r =>
    if is_ws c then (if in_ws then collapse_ws true r else 32%N :: collapse_ws true r)
    else c :: collapse_ws false r
  end.

Definition demo_re_sub (pat repl s : str) (flags : list re_flag) : str :=
  if str_eqb pat (u "<script[^>]*>.*?</script>") then
    remove_blocks (S (length s)) true (u "<script") true (u "</script>") s
  else if str_eqb pat (u "<style[^>]*>.*?</style>") then
    remove_blocks (S (length s)) true (u "<style") true (u "</style>") s
  else if str_eqb pat (u "<!--.*?-->") then
    remove_blocks (S (length s)) false (u "<!--") false (u "-->") s
  else if str_eqb pat (u "\s+") then collapse_ws false s
  else s.

(** Four responses of the backend and what [json.loads] makes of them. *)
Definition response_fraud : str :=
  u "{" ++ GPTHTMLFraudDetector.q "fraud_score" ++ u ": 0.9, "
    ++ GPTHTMLFraudDetector.q "risk_level" ++ u ": " ++ GPTHTMLFraudDetector.q "HIGH" ++ u ", "
    ++ GPTHTMLFraudDetector.q "content" ++ u ": "
    ++ GPTHTMLFraudDetector.q "Send advance payment via UPI now" ++ u "}".

Definition response_fraud_value : pyval :=
  PDict [ (u "fraud_score", PFloat 0.9);
          (u "risk_level", PStr (u "HIGH"));
          (u "content", PStr (u "Send advance payment via UPI now")) ].

Definition response_clean : str :=
  u "{" ++ GPTHTMLFraudDetector.q "fraud_score" ++ u ": 0.4999, "
    ++ GPTHTMLFraudDetector.q "content" ++ u ": "
    ++ GPTHTMLFraudDetector.q "Fresh coconuts for sale. Contact for price." ++ u "}".

Definition response_clean_value : pyval :=
  PDict [ (u "fraud_score", PFloat 0.4999);
          (u "content", PStr (u "Fresh coconuts for sale. Contact for price.")) ].

Definition response_boundary : str :=
  u "{" ++ GPTHTMLFraudDetector.q "fraud_score" ++ u ": 0.5, "
    ++ GPTHTMLFraudDetector.q "content" ++ u ": "
    ++ GPTHTMLFraudDetector.q "Limited offer, book your stay today" ++ u "}".

Definition response_boundary_value : pyval :=
  PDict [ (u "fraud_score", PFloat 0.5);
          (u "content", PStr (u "Limited offer, book your stay today")) ].

Definition response_short : str :=
  u "{" ++ GPTHTMLFraudDetector.q "fraud_score" ++ u ": 0.9, "
    ++ GPTHTMLFraudDetector.q "content" ++ u ": "
    ++ GPTHTMLFraudDetector.q "Pay via UPI now!" ++ u "}".

Definition response_short_value : pyval :=
  PDict [ (u "fraud_score", PFloat 0.9);
          (u "content", PStr (u "Pay via UPI now!")) ].

Definition responses : list (str * pyval) :=
  [ (response_fraud, response_fraud_value); (response_clean, response_clean_value);
    (response_boundary, response_boundary_value);
    (response_short, response_short_value) ].

Definition demo_json_loads (s : str) : option pyval := get s responses.

(** [float(s)] on the numerals [0] and [1] *)
Definition demo_float_of_str (s : str) : option float :=
  if str_eqb s (u "0") then Some 0.0%float
  else if str_eqb s (u "1") then Some 1.0%float
  else None.

(** [json.dumps] on values without floats whose strings are printable
    ASCII. *)
Definition escape (s : str) : str :=
  flat_map (fun c => if (c =? 34)%N || (c =? 92)%N then [92%N; c] else [c]) s.

Fixpoint demo_json_dumps (v : pyval) : str :=
  match v with
  | PNone => u "null"
  | PBool b => if b then u "true" else u "false"
  | PInt z => str_of_int z
  | PFloat _ => []
  | PStr s => dquote :: escape s ++ [dquote]
  | PList l => u "[" ++ join (u ", ") (map demo_json_dumps l) ++ u "]"
  | PDict d =>
    u "{" ++ join (u ", ")
               (map (fun kv => let '(k, x) := kv in
                               dquote :: escape k ++ [dquote] ++ u ": " ++ demo_json_dumps x) d)
      ++ u "}"
  end.

(** [str(v)] on [None], booleans and ints *)
Definition demo_str_of_value (v : pyval) : str :=
  match v with
  | PNone => u "None"
  | PBool b => if b then u "True" else u "False"
  | PInt z => str_of_int z
  | PStr s => s
  | _ => []
  end.

#[export] Instance lib : PyLib := {|
  lower := ascii_lower;
  re_search := demo_re_search;
  re_sub := demo_re_sub;
  json_loads := demo_json_loads;
  json_dumps := demo_json_dumps;
  float_of_str := demo_float_of_str;
  str_of_value := demo_str_of_value
|}.

End Demo.


(** * Properties *)

(** ** Dictionaries *)

Lemma get_cons (k k' : str) (v : pyval) (r : dict) :
  get k ((k', v) :: r) = if str_eqb k k' then Some v else get k r.
Proof. reflexivity. Qed.

(** Looks a literal key up in a dict written as a list of pairs. *)
Ltac dict_get :=
  repeat match goal with
  | |- context [get ?k ((?k', ?v) :: ?r)] =>
    let b := eval vm_compute in (str_eqb k k') in
    change (get k ((k', v) :: r)) with (if b then Some v else get k r);
    cbv iota
  end.

Lemma str_eqb_refl (s : str) : str_eqb s s = true.
Proof.
  induction s as [|c s IH]; [reflexivity|].
  simpl. now rewrite N.eqb_refl.
Qed.

Lemma str_eqb_eq (a b : str) : str_eqb a b = true <-> a = b.
Proof.
  split.
  - revert b. induction a as [|x a IH]; intros [|y b] H; try discriminate; [reflexivity|].
    simpl in H. apply andb_true_iff in H as [Hx Hr].
    apply N.eqb_eq in Hx. f_equal; auto.
  - intros ->. apply str_eqb_refl.
Qed.

(** ** Whitespace *)

Lemma lstrip_all_space (s : str) : forallb isspace s = true -> lstrip s = [].
Proof.
  induction s as [|c s IH]; [reflexivity|].
  simpl. intros H. apply andb_true_iff in H as [Hc Hs].
  rewrite Hc. auto.
Qed.

Lemma rstrip_rev (s : str) : rstrip s = rev (lstrip (rev s)).
Proof. unfold rstrip, rev'. now rewrite <- !rev_alt. Qed.

Lemma strip_all_space (s : str) : forallb isspace s = true -> strip s = [].
Proof.
  intros H. unfold strip. rewrite rstrip_rev. now rewrite (lstrip_all_space s H).
Qed.

Lemma lstrip_nil_all_space (s : str) : lstrip s = [] -> forallb isspace s = true.
Proof.
  induction s as [|c s IH]; [reflexivity|].
  simpl. destruct (isspace c); [auto | discriminate].
Qed.

Section Lexical.
Context {lib : PyLib}.

(** ** C7: empty and whitespace-only content *)

Definition no_content : dict :=
  [ (u "fraud_score", PFloat 0.0);
    (u "risk_level", PStr (u "LOW"));
    (u "fraud_type", PStr (u "none"));
    (u "matched_keywords", PList []);
    (u "matched_patterns", PList []);
    (u "reasoning", PStr (u "No content to analyze")) ].

Lemma analyze_text_no_content (text : str) :
  forallb isspace text = true -> FraudDetector.analyze_text text = no_content.
Proof.
  intros H.
  assert (Hc : negb (truthy (PStr text)) || (length (strip text) =? 0)%nat = true).
  { rewrite (strip_all_space text H). apply orb_true_r. }
  unfold FraudDetector.analyze_text. rewrite Hc. reflexivity.
Qed.

End Lexical.

(** C7. For every empty or whitespace-only text the lexical scorer returns
    score 0.0, risk level LOW, no matched keyword, no matched pattern and
    the reasoning "No content to analyze"; the score is below the retention
    threshold, so such a text is never kept as fraud. *)
Theorem C7_empty_content_scores_zero :
  forall (lib : PyLib) (text : str),
    forallb isspace text = true ->
    let r := FraudDetector.analyze_text text in
    get (u "fraud_score") r = Some (PFloat 0.0)
    /\ get (u "risk_level") r = Some (PStr (u "LOW"))
    /\ get (u "matched_keywords") r = Some (PList [])
    /\ get (u "matched_patterns") r = Some (PList [])
    /\ get (u "reasoning") r = Some (PStr (u "No content to analyze"))
    /\ py_ge (get_default (u "fraud_score") (PFloat 0.0) r) 0.5 = Ok false.
Proof.
  intros lib text H r. subst r.
  rewrite (analyze_text_no_content text H).
  repeat split; vm_compute; reflexivity.
Qed.

Lemma C7_witness :
  forallb isspace (u "  	 ") = true
  /\ get (u "fraud_score") (@FraudDetector.analyze_text Demo.lib (u "  	 "))
     = Some (PFloat 0.0).
Proof.
  split; [vm_compute; reflexivity|].
  apply (C7_empty_content_scores_zero Demo.lib (u "  	 ")).
  vm_compute; reflexivity.
Defined.

(** ** Floats *)

Open Scope float_scope.

Lemma float_mul_comm (x y : float) : x * y = y * x.
Proof.
  apply Prim2SF_inj. rewrite !mul_spec. unfold SF64mul, SFmul.
  destruct (Prim2SF x) as [sx|sx| |sx mx ex], (Prim2SF y) as [sy|sy| |sy my ey];
    try reflexivity; try (now rewrite xorb_comm).
  now rewrite xorb_comm, Pos.mul_comm, Z.add_comm.
Qed.

Lemma ltb_leb (x y : float) : (x <? y) = true -> (x <=? y) = true.
Proof.
  rewrite ltb_spec, leb_spec. unfold SFltb, SFleb.
  destruct (SFcompare (Prim2SF x) (Prim2SF y)) as [[]|]; congruence.
Qed.

Lemma SFcompare_antisym (a b : spec_float) :
  SFcompare b a = option_map CompOpp (SFcompare a b).
Proof.
  destruct a as [sa|sa| |sa ma ea], b as [sb|sb| |sb mb eb]; simpl;
    try reflexivity; try (destruct sa; reflexivity); try (destruct sb; reflexivity);
    try (destruct sa, sb; reflexivity).
  change (Pos.compare_cont Eq mb ma) with (Pos.compare mb ma).
  change (Pos.compare_cont Eq ma mb) with (Pos.compare ma mb).
  rewrite (Z.compare_antisym ea eb), (Pos.compare_antisym ma mb).
  destruct sa, sb; try reflexivity;
    destruct (ea ?= eb)%Z; simpl; try reflexivity;
    destruct (ma ?= mb)%positive; reflexivity.
Qed.

(** [a < b] is the negation of [a >= b] unless one of them is a NaN. *)
Lemma ltb_not_ge (a b : float) :
  (a <=? a) = true -> (b <=? b) = true -> (a <? b) = negb (ge a b).
Proof.
  unfold ge. rewrite ltb_spec, !leb_spec. unfold SFltb, SFleb.
  rewrite (SFcompare_antisym (Prim2SF a) (Prim2SF b)).
  destruct (Prim2SF a) as [sa|sa| |sa ma ea], (Prim2SF b) as [sb|sb| |sb mb eb];
    try discriminate; intros _ _;
    match goal with |- context [SFcompare ?p ?q] => destruct (SFcompare p q) as [[]|] eqn:E end;
    try reflexivity; simpl in E; discriminate.
Qed.

(** The clamp [max(0.0, min(1.0, x))] lands in [0, 1] for every float,
    NaN and the infinities included. *)
Lemma clamp_range (x : float) :
  let r := pymax 0.0 (pymin 1.0 x) in (0.0 <=? r) = true /\ (r <=? 1.0) = true.
Proof.
  cbv zeta. unfold pymin.
  destruct (x <? 1.0) eqn:H1; unfold pymax.
  - destruct (0.0 <? x) eqn:H0.
    + split; now apply ltb_leb.
    + split; reflexivity.
  - change (0.0 <? 1.0) with true. cbv iota. split; reflexivity.
Qed.

Close Scope float_scope.

(** ** The two loops of [analyze_text] *)

Lemma fold_left_append_filter {A : Type} (p : A -> bool) (l acc : list A) :
  fold_left (fun matched x => if p x then matched ++ [x] else matched) l acc
  = acc ++ filter p l.
Proof.
  revert acc. induction l as [|x l IH]; intros acc; simpl.
  - now rewrite app_nil_r.
  - rewrite IH. destruct (p x); [now rewrite <- app_assoc | reflexivity].
Qed.

(** Sum of the weights of a list of rules, added in list order from [s]. *)
Definition weight_sum (s : float) (rules : list FraudDetector.pattern_rule) : float :=
  fold_left (fun acc r => (acc + FraudDetector.weight r)%float) rules s.

Lemma pattern_loop_filter (p : FraudDetector.pattern_rule -> bool)
    (l : list FraudDetector.pattern_rule) (names : list str) (s : float) :
  fold_left
    (fun '(matched_patterns, pattern_score) pattern_dict =>
       if p pattern_dict
       then (matched_patterns ++ [FraudDetector.name pattern_dict],
             (pattern_score + FraudDetector.weight pattern_dict)%float)
       else (matched_patterns, pattern_score))
    l (names, s)
  = (names ++ map FraudDetector.name (filter p l), weight_sum s (filter p l)).
Proof.
  revert names s. induction l as [|r l IH]; intros names s; simpl.
  - now rewrite app_nil_r.
  - destruct (p r); rewrite IH; simpl; [now rewrite <- app_assoc | reflexivity].
Qed.

Lemma filter_length_le {A : Type} (p : A -> bool) (l : list A) :
  length (filter p l) <= length l.
Proof.
  induction l as [|x l IH]; simpl; [lia|]. destruct (p x); simpl; lia.
Qed.

Lemma lstrip_keeps_nonspace (s : str) :
  (exists c, In c s /\ isspace c = false) -> lstrip s <> [].
Proof.
  intros (c & Hin & Hc) Hnil.
  apply lstrip_nil_all_space in Hnil.
  rewrite forallb_forall in Hnil. specialize (Hnil c Hin). congruence.
Qed.

Lemma lstrip_incl (s : str) (c : codepoint) : In c (lstrip s) -> In c s.
Proof.
  induction s as [|x s IH]; simpl; [auto|].
  destruct (isspace x); simpl; auto.
Qed.

Lemma lstrip_nonspace_in (s : str) :
  (exists c, In c s /\ isspace c = false) ->
  exists c, In c (lstrip s) /\ isspace c = false.
Proof.
  induction s as [|x s IH]; intros (c & Hin & Hc); [destruct Hin|].
  simpl. destruct (isspace x) eqn:Hx.
  - apply IH. destruct Hin as [->|Hin]; [congruence|]. now exists c.
  - exists c. split; assumption.
Qed.

Lemma strip_nonempty (s : str) :
  (exists c, In c s /\ isspace c = false) -> strip s <> [].
Proof.
  intros H. apply lstrip_nonspace_in in H as (c & Hin & Hc).
  unfold strip. rewrite rstrip_rev. intros Hnil.
  assert (Hr : lstrip (rev (lstrip s)) = []).
  { destruct (lstrip (rev (lstrip s))) as [|y t]; [reflexivity|].
    simpl in Hnil. now destruct (rev t). }
  revert Hr. apply lstrip_keeps_nonspace.
  exists c. split; [now apply in_rev in Hin | assumption].
Qed.

(** The score for [n] matched keywords and the matched pattern [rules]. *)
Definition score_of (n : nat) (rules : list FraudDetector.pattern_rule) : float :=
  pymin (pymin (float_of_len n * 0.15) 0.6 + pymin (weight_sum 0.0 rules) 0.4) 1.0.

Section LexicalScore.
Context {lib : PyLib}.

(** The keywords whose lower-cased form occurs in the lower-cased text. *)
Definition matched_keywords_of (text : str) : list str :=
  filter (fun keyword => str_in (lower keyword) (lower text))
         FraudDetector._load_fraud_keywords.

(** The pattern rules whose regular expression finds a match in the
    lower-cased text. *)
Definition matched_rules_of (text : str) : list FraudDetector.pattern_rule :=
  filter (fun r => re_search (FraudDetector.pattern r) (lower text))
         FraudDetector._load_fraud_patterns.

Lemma match_keywords_filter (text : str) :
  FraudDetector.match_keywords (lower text) = matched_keywords_of text.
Proof.
  unfold FraudDetector.match_keywords, matched_keywords_of.
  now rewrite fold_left_append_filter.
Qed.

Lemma match_patterns_filter (text : str) :
  FraudDetector.match_patterns (lower text)
  = (map FraudDetector.name (matched_rules_of text),
     weight_sum 0.0 (matched_rules_of text)).
Proof.
  unfold FraudDetector.match_patterns, matched_rules_of.
  now rewrite pattern_loop_filter.
Qed.

(** The score of a text with content, as the code computes it. *)
Definition lexical_score (text : str) : float :=
  score_of (length (matched_keywords_of text)) (matched_rules_of text).

Definition risk_of (score : float) : str :=
  if ge score 0.7 then u "HIGH" else if ge score 0.4 then u "MEDIUM" else u "LOW".

(** [analyze_text] on a text with content, loops resolved. *)
Lemma analyze_text_content (text : str) :
  (exists c, In c text /\ isspace c = false) ->
  FraudDetector.analyze_text text =
  [ (u "fraud_score", PFloat (lexical_score text));
    (u "risk_level", PStr (risk_of (lexical_score text)));
    (u "fraud_type",
       PStr (FraudDetector._classify_fraud_type (matched_keywords_of text) (lower text)));
    (u "matched_keywords", PList (map PStr (matched_keywords_of text)));
    (u "matched_patterns",
       PList (map PStr (map FraudDetector.name (matched_rules_of text))));
    (u "reasoning",
       PStr (FraudDetector._generate_reasoning (matched_keywords_of text)
               (map FraudDetector.name (matched_rules_of text)) (lexical_score text))) ].
Proof.
  intros H.
  assert (Hc : negb (truthy (PStr text)) || (length (strip text) =? 0)%nat = false).
  { apply orb_false_iff. split.
    - destruct H as (c & Hin & _). destruct text; [destruct Hin | reflexivity].
    - apply Nat.eqb_neq. apply strip_nonempty in H.
      destruct (strip text); [congruence | discriminate]. }
  unfold FraudDetector.analyze_text. rewrite Hc.
  rewrite match_keywords_filter, match_patterns_filter.
  unfold lexical_score, score_of, risk_of. cbv beta iota zeta. reflexivity.
Qed.

End LexicalScore.

(** ** Every reachable lexical score, by enumeration

    The score depends on the text only through the number of matched
    keywords (at most the length of the keyword list) and through the
    sub-list of matched pattern rules. *)

Fixpoint sublists {A : Type} (l : list A) : list (list A) :=
  match l with
  | [] => [[]]
  | x :: r => map (cons x) (sublists r) ++ sublists r
  end.

Lemma filter_in_sublists {A : Type} (p : A -> bool) (l : list A) :
  In (filter p l) (sublists l).
Proof.
  induction l as [|x l IH]; simpl; [now left|].
  apply in_or_app. destruct (p x); [left; now apply in_map | now right].
Qed.

Lemma keywords_length : length FraudDetector._load_fraud_keywords = 134.
Proof. vm_compute. reflexivity. Qed.

Definition all_scores (P : float -> bool) : bool :=
  forallb (fun rules => forallb (fun n => P (score_of n rules)) (seq 0 135))
          (sublists FraudDetector._load_fraud_patterns).

Lemma lexical_score_cases {lib : PyLib} (P : float -> bool) :
  all_scores P = true -> forall text, P (lexical_score text) = true.
Proof.
  intros H text. unfold all_scores in H.
  assert (Hr : In (matched_rules_of text) (sublists FraudDetector._load_fraud_patterns))
    by apply filter_in_sublists.
  assert (Hn : length (matched_keywords_of text) <= 134).
  { rewrite <- keywords_length. apply filter_length_le. }
  assert (Hk : In (length (matched_keywords_of text)) (seq 0 135)).
  { apply in_seq. lia. }
  pose proof (proj1 (forallb_forall _ _) H _ Hr) as H1. cbv beta in H1.
  pose proof (proj1 (forallb_forall _ _) H1 _ Hk) as H2. cbv beta in H2.
  unfold lexical_score. exact H2.
Qed.

(** The risk level as the specification words it: HIGH from 0.7, MEDIUM
    from 0.4 and below 0.7, LOW otherwise. *)
Definition spec_risk (score : float) : str :=
  if ge score 0.7 then u "HIGH"
  else if ge score 0.4 && (score <? 0.7)%float then u "MEDIUM"
  else u "LOW".

Lemma all_scores_in_range :
  all_scores (fun s => (0.0 <=? s)%float && (s <=? 1.0)%float) = true.
Proof. vm_compute. reflexivity. Qed.

Lemma all_scores_risk :
  all_scores (fun s => str_eqb (risk_of s) (spec_risk s)) = true.
Proof. vm_compute. reflexivity. Qed.

Lemma lexical_score_range {lib : PyLib} (text : str) :
  (0.0 <=? lexical_score text)%float = true /\ (lexical_score text <=? 1.0)%float = true.
Proof.
  apply andb_true_iff.
  apply (lexical_score_cases (fun s => (0.0 <=? s)%float && (s <=? 1.0)%float)
                             all_scores_in_range).
Qed.

Lemma lexical_risk_spec {lib : PyLib} (text : str) :
  risk_of (lexical_score text) = spec_risk (lexical_score text).
Proof.
  apply str_eqb_eq.
  apply (lexical_score_cases (fun s => str_eqb (risk_of s) (spec_risk s)) all_scores_risk).
Qed.

(** What [analyze_text] returns is one of the two shapes. *)
Lemma analyze_text_cases {lib : PyLib} (text : str) :
  forallb isspace text = true \/ (exists c, In c text /\ isspace c = false).
Proof.
  induction text as [|c text IH]; [now left|].
  simpl. destruct (isspace c) eqn:Hc.
  - destruct IH as [IH|(c' & Hin & Hc')]; [now left|].
    right. exists c'. split; [now right | assumption].
  - right. exists c. split; [now left | assumption].
Qed.

(** ** C4: the score formula *)

(** The two partial scores as the specification words them. *)
Definition keywordScore (matched : nat) : float :=
  pymin (0.15 * float_of_len matched) 0.6.

Definition patternScore (matched : list FraudDetector.pattern_rule) : float :=
  pymin (weight_sum 0.0 matched) 0.4.

(** C4. For every text that is not empty (nor only whitespace) the lexical
    scorer returns min(keywordScore + patternScore, 1.0), where
    keywordScore is min(0.15 * number of matched keywords, 0.6), the matched
    keywords are those whose lower-cased form is a substring of the
    lower-cased text, and patternScore is min(sum of the weights of the
    rules whose pattern matches, 0.4). *)
Theorem C4_score_formula :
  forall (lib : PyLib) (text : str),
    (exists c, In c text /\ isspace c = false) ->
    get (u "fraud_score") (FraudDetector.analyze_text text)
      = Some (PFloat (pymin (keywordScore (length (matched_keywords_of text))
                             + patternScore (matched_rules_of text)) 1.0))
    /\ get (u "matched_keywords") (FraudDetector.analyze_text text)
       = Some (PList (map PStr (matched_keywords_of text)))
    /\ get (u "matched_patterns") (FraudDetector.analyze_text text)
       = Some (PList (map PStr (map FraudDetector.name (matched_rules_of text)))).
Proof.
  intros lib text H.
  rewrite (analyze_text_content text H).
  repeat split; dict_get; try reflexivity.
  unfold lexical_score, score_of, keywordScore, patternScore.
  now rewrite (float_mul_comm 0.15).
Qed.

Lemma C4_witness :
  (exists c, In c (u "urgent hurry immediately last chance") /\ isspace c = false)
  /\ get (u "fraud_score")
         (@FraudDetector.analyze_text Demo.lib (u "urgent hurry immediately last chance"))
     = Some (PFloat 0.8).
Proof.
  assert (H : exists c, In c (u "urgent hurry immediately last chance")
                        /\ isspace c = false)
    by (vm_compute; exists 117%N; split; [left; reflexivity | reflexivity]).
  split; [exact H|].
  refine (eq_trans (proj1 (C4_score_formula Demo.lib _ H)) _).
  vm_compute. reflexivity.
Defined.

(** ** The normalisation step of the AI adapters *)

Ltac dict_step :=
  match goal with
  | |- context [get ?k ((?k', ?v) :: ?r)] =>
    let b := eval vm_compute in (str_eqb k k') in
    change (get k ((k', v) :: r)) with (if b then Some v else get k r)
  | |- context [set_item ?k ?v ((?k', ?v') :: ?r)] =>
    let b := eval vm_compute in (str_eqb k k') in
    change (set_item k v ((k', v') :: r))
      with (if b then (k, v) :: r else (k', v') :: set_item k v r)
  end; cbv iota.

Section Normalize.
Context {lib : PyLib}.

Definition clamp (x : float) : float := pymax 0.0 (pymin 1.0 x).

Definition valid_level (v : pyval) : bool :=
  in_strs v [u "HIGH"; u "MEDIUM"; u "LOW"].

(** The dict [_normalize_analysis] returns for the backend's dict [a] whose
    score converts to the float [x]. *)
Definition normalized_of (a : dict) (x : float) : dict :=
  let supplied := get_default (u "risk_level") (PStr (u "LOW")) a in
  [ (u "is_fraud", get_default (u "is_fraud") (PBool false) a);
    (u "fraud_score", PFloat (clamp x));
    (u "risk_level", if valid_level supplied then supplied else PStr (risk_of (clamp x)));
    (u "fraud_type", get_default (u "fraud_type") (PStr (u "suspicious_content")) a);
    (u "reasoning", get_default (u "reasoning") (PStr (u "No analysis provided")) a);
    (u "username", get_default (u "username") PNone a);
    (u "content", get_default (u "content") (PStr []) a);
    (u "language", get_default (u "language") (PStr (u "unknown")) a);
    (u "red_flags", get_default (u "red_flags") (PList []) a);
    (u "matched_keywords", get_default (u "matched_keywords") (PList []) a) ].

Lemma normalize_dict (a : dict) :
  GPTHTMLFraudDetector._normalize_analysis (PDict a)
  = bind (py_float (get_default (u "fraud_score") (PFloat 0.0) a))
         (fun x => Ok (normalized_of a x)).
Proof.
  unfold GPTHTMLFraudDetector._normalize_analysis.
  destruct (py_float (get_default (u "fraud_score") (PFloat 0.0) a)) as [x|e];
    [|reflexivity].
  unfold bind, item. cbv beta iota zeta.
  repeat dict_step.
  unfold normalized_of, valid_level, risk_of, clamp. cbv beta iota zeta.
  destruct (in_strs (get_default (u "risk_level") (PStr (u "LOW")) a)
                    [u "HIGH"; u "MEDIUM"; u "LOW"]); cbv beta iota zeta.
  - simpl negb. cbv iota. reflexivity.
  - simpl negb. cbv iota.
    destruct (ge (pymax 0.0 (pymin 1.0 x)) 0.7); [repeat dict_step; reflexivity|].
    destruct (ge (pymax 0.0 (pymin 1.0 x)) 0.4); repeat dict_step; reflexivity.
Qed.

Lemma normalize_inv (analysis : pyval) (d : dict) :
  GPTHTMLFraudDetector._normalize_analysis analysis = Ok d ->
  exists a x, analysis = PDict a
              /\ py_float (get_default (u "fraud_score") (PFloat 0.0) a) = Ok x
              /\ d = normalized_of a x.
Proof.
  destruct analysis as [| | | | | |a]; try discriminate.
  rewrite normalize_dict.
  destruct (py_float (get_default (u "fraud_score") (PFloat 0.0) a)) as [x|e] eqn:E;
    [|discriminate].
  unfold bind. intros [= <-]. exists a, x. repeat split. exact E.
Qed.

Lemma normalized_score (a : dict) (x : float) :
  get (u "fraud_score") (normalized_of a x) = Some (PFloat (clamp x)).
Proof. unfold normalized_of. cbv zeta. repeat dict_step. reflexivity. Qed.

Lemma normalized_risk (a : dict) (x : float) :
  get (u "risk_level") (normalized_of a x)
  = Some (let supplied := get_default (u "risk_level") (PStr (u "LOW")) a in
          if valid_level supplied then supplied else PStr (risk_of (clamp x))).
Proof. unfold normalized_of. cbv zeta. repeat dict_step. reflexivity. Qed.

Lemma normalized_content (a : dict) (x : float) :
  get (u "content") (normalized_of a x) = Some (get_default (u "content") (PStr []) a).
Proof. unfold normalized_of. cbv zeta. repeat dict_step. reflexivity. Qed.

End Normalize.

(** A clamped score is never a NaN, so the two wordings of the risk level
    agree on it. *)
Lemma clamp_risk_spec (x : float) : risk_of (clamp x) = spec_risk (clamp x).
Proof.
  unfold risk_of, spec_risk.
  destruct (ge (clamp x) 0.7) eqn:H7; [reflexivity|].
  destruct (ge (clamp x) 0.4) eqn:H4; [|reflexivity].
  assert (Hlt : ((clamp x) <? 0.7)%float = true).
  { destruct (clamp_range x) as [H0 H1]. fold (clamp x) in H0, H1.
    rewrite ltb_not_ge, H7; [reflexivity| |reflexivity].
    rewrite leb_spec in *. unfold SFleb in *.
    destruct (Prim2SF (clamp x)) as [s|s| |s m e]; try reflexivity;
      try (destruct s; reflexivity); try discriminate.
    simpl. rewrite Z.compare_refl, Pos.compare_cont_refl. now destruct s. }
  now rewrite Hlt.
Qed.

(** ** What the adapters return *)

Definition result_keys : list str :=
  map u [ "is_fraud"; "fraud_score"; "risk_level"; "fraud_type"; "reasoning";
          "username"; "content"; "language"; "red_flags"; "matched_keywords" ]%string.

(** A result with every field of the adapters' contract. *)
Definition complete (d : dict) : Prop :=
  forallb (fun k => has_key k d) result_keys = true.

Lemma normalized_complete {lib : PyLib} (a : dict) (x : float) :
  complete (normalized_of a x).
Proof.
  unfold complete, result_keys, normalized_of. cbv zeta.
  cbn [map forallb]. unfold has_key.
  repeat dict_step. reflexivity.
Qed.

(** The fallback of the two vision adapters differs from the HTML
    adapter's only in its reasoning text. *)
Definition is_fallback (d : dict) : Prop :=
  d = GPTHTMLFraudDetector._fallback_analysis
  \/ d = GPTVisionFraudDetector._fallback_analysis.

Definition fallback_or_normalized {lib : PyLib} (d : dict) : Prop :=
  is_fallback d \/ exists a x, d = normalized_of a x.

Lemma result_of_normalize {lib : PyLib} (analysis : pyval) :
  match GPTHTMLFraudDetector._normalize_analysis analysis with
  | Ok d => exists a x, d = normalized_of a x
  | Raise _ => True
  end.
Proof.
  destruct (GPTHTMLFraudDetector._normalize_analysis analysis) as [d|e] eqn:E;
    [|exact I].
  apply normalize_inv in E as (a & x & _ & _ & ->). now exists a, x.
Qed.

(** What an adapter returns when it returns. *)
Definition returns_fallback_or_normalized {lib : PyLib} (r : res dict) : Prop :=
  match r with
  | Ok d => fallback_or_normalized d
  | Raise _ => True
  end.

Lemma html_request_returned {lib : PyLib} (e : GPTHTMLFraudDetector.env) (html : str)
    (r : dict) :
  GPTHTMLFraudDetector.analyze_post_html_request e html = Ok (GPTHTMLFraudDetector.Returned r) ->
  r = GPTHTMLFraudDetector._fallback_analysis.
Proof.
  unfold GPTHTMLFraudDetector.analyze_post_html_request.
  destruct (GPTHTMLFraudDetector.import_openai e) as [[]|ex].
  2: { destruct ex; try discriminate. now intros [= <-]. }
  destruct (GPTHTMLFraudDetector.openai_client e) as [[]|]; [|discriminate].
  unfold bind.
  destruct (_ || _); [now intros [= <-]|].
  destruct (GPTHTMLFraudDetector.chat_completions_create e _); discriminate.
Qed.

Lemma html_parse_result {lib : PyLib} (result_text : option str) :
  match GPTHTMLFraudDetector.analyze_post_html_parse result_text with
  | Ok d => exists a x, d = normalized_of a x
  | Raise _ => True
  end.
Proof.
  unfold GPTHTMLFraudDetector.analyze_post_html_parse.
  destruct result_text as [t|]; [|exact I].
  destruct (json_loads t) as [v|]; [|exact I].
  unfold bind. pose proof (result_of_normalize v) as Hn.
  destruct (GPTHTMLFraudDetector._normalize_analysis v); [exact Hn | exact I].
Qed.

Lemma analyze_post_html_result {lib : PyLib} (e : GPTHTMLFraudDetector.env) (html : str) :
  returns_fallback_or_normalized (GPTHTMLFraudDetector.analyze_post_html e html).
Proof.
  unfold returns_fallback_or_normalized, GPTHTMLFraudDetector.analyze_post_html.
  destruct (negb _); [left; now left|].
  destruct (GPTHTMLFraudDetector.analyze_post_html_request e html) as [[r|t]|ex] eqn:E.
  - apply html_request_returned in E as ->. left; now left.
  - pose proof (html_parse_result t) as Hp.
    destruct (GPTHTMLFraudDetector.analyze_post_html_parse t) as [d|ex];
      [now right | destruct ex; left; now left].
  - destruct ex; try (left; now left); exact I.
Qed.

Lemma vision_request_returned {lib : PyLib} (e : GPTVisionFraudDetector.env) (p : str)
    (r : dict) :
  GPTVisionFraudDetector.analyze_screenshot_request e p
    = Ok (GPTHTMLFraudDetector.Returned r) ->
  r = GPTVisionFraudDetector._fallback_analysis.
Proof.
  unfold GPTVisionFraudDetector.analyze_screenshot_request.
  destruct (GPTVisionFraudDetector.import_openai e) as [[]|ex].
  2: { destruct ex; try discriminate. now intros [= <-]. }
  destruct (GPTVisionFraudDetector.openai_client e) as [[]|]; [|discriminate].
  unfold bind.
  destruct (GPTVisionFraudDetector.read_image e p) as [img|]; [|discriminate].
  destruct (GPTVisionFraudDetector.chat_completions_create e img); discriminate.
Qed.

Lemma vision_parse_result {lib : PyLib} (result_text : option str) :
  match GPTVisionFraudDetector.analyze_screenshot_parse result_text with
  | Ok d => exists a x, d = normalized_of a x
  | Raise _ => True
  end.
Proof.
  unfold GPTVisionFraudDetector.analyze_screenshot_parse.
  destruct result_text as [t|]; [|exact I].
  destruct (json_loads t) as [v|]; [|exact I].
  unfold bind, GPTVisionFraudDetector._normalize_analysis.
  pose proof (result_of_normalize v) as Hn.
  destruct (GPTHTMLFraudDetector._normalize_analysis v); [exact Hn | exact I].
Qed.

Lemma gpt_vision_result {lib : PyLib} (e : GPTVisionFraudDetector.env) (p : str) :
  returns_fallback_or_normalized (GPTVisionFraudDetector.analyze_screenshot e p).
Proof.
  unfold returns_fallback_or_normalized, GPTVisionFraudDetector.analyze_screenshot.
  destruct (negb _); [left; now right|].
  destruct (GPTVisionFraudDetector.analyze_screenshot_request e p) as [[r|t]|ex] eqn:E.
  - apply vision_request_returned in E as ->. left; now right.
  - pose proof (vision_parse_result t) as Hp.
    destruct (GPTVisionFraudDetector.analyze_screenshot_parse t) as [d|ex];
      [now right | destruct ex; left; now right].
  - destruct ex; try (left; now right); exact I.
Qed.

Lemma vision_result {lib : PyLib} (e : VisionFraudDetector.env) (p : str) :
  fallback_or_normalized (VisionFraudDetector.analyze_screenshot e p).
Proof.
  unfold VisionFraudDetector.analyze_screenshot.
  destruct (VisionFraudDetector.analyze_screenshot_try e p) as [d|ex] eqn:E;
    [|left; now right].
  unfold VisionFraudDetector.analyze_screenshot_try in E.
  destruct (VisionFraudDetector.read_image e p) as [img|]; [|discriminate].
  simpl in E.
  destruct (VisionFraudDetector.requests_post e img) as [| |code js]; try discriminate.
  destruct (negb (code =? 200)%Z); [injection E as <-; left; now right|].
  destruct js as [result|]; [|discriminate]. simpl in E.
  destruct result as [| | | | | |r]; try discriminate. simpl in E.
  destruct (get_default (u "response") (PStr []) r) as [| | | |out| |]; try discriminate.
  destruct (json_loads out) as [v|]; [|injection E as <-; left; now right].
  unfold VisionFraudDetector._normalize_analysis in E.
  pose proof (result_of_normalize v) as Hn.
  destruct (GPTHTMLFraudDetector._normalize_analysis v) as [d'|]; [|discriminate].
  injection E as <-. now right.
Qed.

Definition in_unit_interval (s : float) : Prop :=
  (0.0 <=? s)%float = true /\ (s <=? 1.0)%float = true.

Definition score_in_range (d : dict) : Prop :=
  exists s, get (u "fraud_score") d = Some (PFloat s) /\ in_unit_interval s.

Lemma fallback_or_normalized_range {lib : PyLib} (d : dict) :
  fallback_or_normalized d -> score_in_range d.
Proof.
  intros [[->| ->]|(a & x & ->)].
  - exists 0.0%float. repeat split; vm_compute; reflexivity.
  - exists 0.0%float. repeat split; vm_compute; reflexivity.
  - exists (clamp x). split; [apply normalized_score | apply clamp_range].
Qed.

(** C9. The fraud score lies in [0, 1] after the lexical scorer, for every
    text, and after the normalisation step of every AI adapter, whatever
    value (float, int, bool, numeral string, NaN, infinity) the backend
    supplied; so does the score of every result an adapter returns. *)
Theorem C9_score_in_unit_interval :
  (forall (lib : PyLib) (text : str),
      score_in_range (FraudDetector.analyze_text text))
  /\ (forall (lib : PyLib) (analysis : pyval),
         match GPTHTMLFraudDetector._normalize_analysis analysis with
         | Ok d => score_in_range d
         | Raise _ => True
         end)
  /\ (forall (lib : PyLib) e html,
         match GPTHTMLFraudDetector.analyze_post_html e html with
         | Ok d => score_in_range d
         | Raise _ => True
         end)
  /\ (forall (lib : PyLib) e image_path,
         match GPTVisionFraudDetector.analyze_screenshot e image_path with
         | Ok d => score_in_range d
         | Raise _ => True
         end)
  /\ (forall (lib : PyLib) e image_path,
         score_in_range (VisionFraudDetector.analyze_screenshot e image_path)).
Proof.
  split; [|split; [|split; [|split]]].
  - intros lib text. destruct (analyze_text_cases text) as [H|H].
    + rewrite (analyze_text_no_content text H).
      exists 0.0%float. repeat split; vm_compute; reflexivity.
    + rewrite (analyze_text_content text H).
      exists (lexical_score text). split; [dict_get; reflexivity|].
      apply lexical_score_range.
  - intros lib analysis. pose proof (result_of_normalize analysis) as H.
    destruct (GPTHTMLFraudDetector._normalize_analysis analysis); [|exact I].
    apply fallback_or_normalized_range. now right.
  - intros lib e html. pose proof (analyze_post_html_result e html) as H.
    destruct (GPTHTMLFraudDetector.analyze_post_html e html); [|exact I].
    now apply fallback_or_normalized_range.
  - intros lib e p. pose proof (gpt_vision_result e p) as H.
    destruct (GPTVisionFraudDetector.analyze_screenshot e p); [|exact I].
    now apply fallback_or_normalized_range.
  - intros lib e p. apply fallback_or_normalized_range, vision_result.
Qed.

(** ** C3: risk level and score *)

(** A result whose risk level is the one the thresholds give its score. *)
Definition risk_consistent (d : dict) : Prop :=
  exists s, get (u "fraud_score") d = Some (PFloat s)
            /\ get (u "risk_level") d = Some (PStr (spec_risk s)).

Lemma analyze_text_risk_consistent {lib : PyLib} (text : str) :
  risk_consistent (FraudDetector.analyze_text text).
Proof.
  destruct (analyze_text_cases text) as [H|H].
  - rewrite (analyze_text_no_content text H).
    exists 0.0%float. split; vm_compute; reflexivity.
  - rewrite (analyze_text_content text H).
    exists (lexical_score text). split; dict_get; [reflexivity|].
    now rewrite lexical_risk_spec.
Qed.

(** A backend reply with score 0.9 and the label LOW. *)
Definition mislabelled : dict :=
  [ (u "fraud_score", PFloat 0.9); (u "risk_level", PStr (u "LOW")) ].

(** C3, as stated, fails: the normalisation keeps the label LOW beside the
    score 0.9. *)
Lemma C3_counterexample :
  @GPTHTMLFraudDetector._normalize_analysis Demo.lib (PDict mislabelled)
    = Ok (normalized_of mislabelled 0.9)
  /\ get (u "fraud_score") (normalized_of mislabelled 0.9) = Some (PFloat 0.9)
  /\ get (u "risk_level") (normalized_of mislabelled 0.9) = Some (PStr (u "LOW"))
  /\ spec_risk 0.9 = u "HIGH".
Proof. split; [|split; [|split]]; vm_compute; reflexivity. Qed.

(** C3 (amended). The lexical scorer's risk level is HIGH exactly when its
    score is at least 0.7, MEDIUM when it is at least 0.4 and below 0.7, and
    LOW otherwise.  The normalisation of an AI adapter keeps a supplied
    risk level that is one of HIGH, MEDIUM and LOW as it is (LOW when the
    backend supplied none); only a supplied value that is none of the three
    is replaced by the level these thresholds give the clamped score. *)
Theorem C3_risk_level_from_score :
  (forall (lib : PyLib) (text : str),
      risk_consistent (FraudDetector.analyze_text text))
  /\ (forall (lib : PyLib) (a d : dict),
         GPTHTMLFraudDetector._normalize_analysis (PDict a) = Ok d ->
         let supplied := get_default (u "risk_level") (PStr (u "LOW")) a in
         (valid_level supplied = true -> get (u "risk_level") d = Some supplied)
         /\ (valid_level supplied = false -> risk_consistent d)).
Proof.
  split; [intros lib text; apply analyze_text_risk_consistent|].
  intros lib a d E supplied.
  apply normalize_inv in E as (a' & x & [= <-] & _ & ->).
  split; intros Hv.
  - rewrite normalized_risk. cbv zeta. fold supplied. now rewrite Hv.
  - exists (clamp x). split; [apply normalized_score|].
    rewrite normalized_risk. cbv zeta. fold supplied. rewrite Hv.
    now rewrite clamp_risk_spec.
Qed.

(** A reply whose label is no risk level: it is derived from the score. *)
Definition unlabelled : dict :=
  [ (u "fraud_score", PFloat 0.55); (u "risk_level", PStr (u "CRITICAL")) ].

Lemma C3_witness :
  @GPTHTMLFraudDetector._normalize_analysis Demo.lib (PDict unlabelled)
    = Ok (normalized_of unlabelled 0.55)
  /\ valid_level (get_default (u "risk_level") (PStr (u "LOW")) unlabelled) = false
  /\ risk_consistent (normalized_of unlabelled 0.55).
Proof.
  assert (E : @GPTHTMLFraudDetector._normalize_analysis Demo.lib (PDict unlabelled)
              = Ok (normalized_of unlabelled 0.55))
    by (vm_compute; reflexivity).
  assert (V : valid_level (get_default (u "risk_level") (PStr (u "LOW")) unlabelled)
              = false) by (vm_compute; reflexivity).
  split; [exact E|]. split; [exact V|].
  exact (proj2 (proj2 C3_risk_level_from_score Demo.lib unlabelled _ E) V).
Defined.



(** ** C2: the fallback of the adapters *)

(** [self.api_key] is set and not empty. *)
Definition key_set (k : option str) : bool :=
  match k with
  | Some k => truthy (PStr k)
  | None => false
  end.

(** The ways the analysis of [html] by the HTML adapter fails in the
    environment [e]. *)
Inductive html_failure {lib : PyLib} (e : GPTHTMLFraudDetector.env) (html : str) : Prop :=
| missing_credentials :
    key_set (GPTHTMLFraudDetector.api_key e) = false -> html_failure e html
| library_missing (ex : exn) :
    GPTHTMLFraudDetector.import_openai e = Raise ex -> html_failure e html
| client_fails (ex : exn) :
    GPTHTMLFraudDetector.openai_client e = Raise ex -> html_failure e html
| too_short :
    length (GPTHTMLFraudDetector._clean_html html) < 50 -> html_failure e html
| call_raises (ex : exn) :
    GPTHTMLFraudDetector.chat_completions_create e
      (GPTHTMLFraudDetector._build_fraud_prompt (GPTHTMLFraudDetector._clean_html html))
    = GPTHTMLFraudDetector.Raises ex ->
    html_failure e html
| no_text :
    GPTHTMLFraudDetector.chat_completions_create e
      (GPTHTMLFraudDetector._build_fraud_prompt (GPTHTMLFraudDetector._clean_html html))
    = GPTHTMLFraudDetector.Content None ->
    html_failure e html
| not_json (t : str) :
    GPTHTMLFraudDetector.chat_completions_create e
      (GPTHTMLFraudDetector._build_fraud_prompt (GPTHTMLFraudDetector._clean_html html))
    = GPTHTMLFraudDetector.Content (Some t) ->
    json_loads t = None ->
    html_failure e html
| not_normalizable (t : str) (v : pyval) (ex : exn) :
    GPTHTMLFraudDetector.chat_completions_create e
      (GPTHTMLFraudDetector._build_fraud_prompt (GPTHTMLFraudDetector._clean_html html))
    = GPTHTMLFraudDetector.Content (Some t) ->
    json_loads t = Some v ->
    GPTHTMLFraudDetector._normalize_analysis v = Raise ex ->
    html_failure e html.





Lemma fallback_complete : complete GPTHTMLFraudDetector._fallback_analysis.
Proof. vm_compute. reflexivity. Qed.

Lemma vision_fallback_complete : complete GPTVisionFraudDetector._fallback_analysis.
Proof. vm_compute. reflexivity. Qed.

Lemma fallback_or_normalized_complete {lib : PyLib} (d : dict) :
  fallback_or_normalized d -> complete d.
Proof.
  intros [[->| ->]|(a & x & ->)].
  - apply fallback_complete.
  - apply vision_fallback_complete.
  - apply normalized_complete.
Qed.

Section Fallback.
Context {lib : PyLib}.

(** A failed analysis gives the fallback whenever the HTML adapter returns. *)
Lemma html_failure_outcome (e : GPTHTMLFraudDetector.env) (html : str) :
  html_failure e html ->
  match GPTHTMLFraudDetector.analyze_post_html e html with
  | Ok d => d = GPTHTMLFraudDetector._fallback_analysis
  | Raise _ => True
  end.
Proof.
  intros F. unfold GPTHTMLFraudDetector.analyze_post_html.
  fold (key_set (GPTHTMLFraudDetector.api_key e)).
  destruct (key_set (GPTHTMLFraudDetector.api_key e)) eqn:K; [|reflexivity].
  cbn [negb].
  destruct (GPTHTMLFraudDetector.analyze_post_html_request e html) as [[r|t]|ex] eqn:E.
  - now apply html_request_returned in E.
  - unfold GPTHTMLFraudDetector.analyze_post_html_request in E.
    destruct (GPTHTMLFraudDetector.import_openai e) as [[]|ex] eqn:Hi;
      [|destruct ex; discriminate].
    destruct (GPTHTMLFraudDetector.openai_client e) as [[]|] eqn:Hc; [|discriminate].
    unfold bind in E.
    destruct (negb (truthy (PStr (GPTHTMLFraudDetector._clean_html html)))
              || (length (GPTHTMLFraudDetector._clean_html html) <? 50)) eqn:S;
      [discriminate|].
    apply orb_false_iff in S as [_ S]. apply Nat.ltb_ge in S.
    destruct (GPTHTMLFraudDetector.chat_completions_create e _) as [|t'] eqn:Hr;
      [discriminate|].
    injection E as ->.
    unfold GPTHTMLFraudDetector.analyze_post_html_parse.
    destruct F as [F|ex F|ex F|F|ex F|F|t' F J|t' v ex F J N];
      try congruence; try lia; rewrite F in Hr; injection Hr as <-.
    + reflexivity.
    + rewrite J. reflexivity.
    + rewrite J. unfold bind. rewrite N. now destruct ex.
  - now destruct ex.
Qed.



(** An early [json.JSONDecodeError] of the request leaves the adapter as an
    [UnboundLocalError]. *)
Lemma html_decode_error_escapes (e : GPTHTMLFraudDetector.env) (html : str) :
  key_set (GPTHTMLFraudDetector.api_key e) = true ->
  GPTHTMLFraudDetector.import_openai e = Ok tt ->
  GPTHTMLFraudDetector.openai_client e = Ok tt ->
  50 <= length (GPTHTMLFraudDetector._clean_html html) ->
  GPTHTMLFraudDetector.chat_completions_create e
    (GPTHTMLFraudDetector._build_fraud_prompt (GPTHTMLFraudDetector._clean_html html))
  = GPTHTMLFraudDetector.Raises JSONDecodeError ->
  GPTHTMLFraudDetector.analyze_post_html e html = Raise UnboundLocalError.
Proof.
  intros K Hi Hc S Hr. unfold GPTHTMLFraudDetector.analyze_post_html.
  fold (key_set (GPTHTMLFraudDetector.api_key e)). rewrite K. cbn [negb].
  unfold GPTHTMLFraudDetector.analyze_post_html_request. rewrite Hi, Hc. unfold bind.
  assert (T : negb (truthy (PStr (GPTHTMLFraudDetector._clean_html html)))
              || (length (GPTHTMLFraudDetector._clean_html html) <? 50) = false).
  { apply orb_false_iff. split.
    - destruct (GPTHTMLFraudDetector._clean_html html); [simpl in S; lia | reflexivity].
    - now apply Nat.ltb_ge. }
  rewrite T, Hr. reflexivity.
Qed.





End Fallback.



(** An environment with credentials whose backend always answers [c]. *)
Definition demo_env (c : GPTHTMLFraudDetector.completion) : GPTHTMLFraudDetector.env :=
  {| GPTHTMLFraudDetector.api_key := Some (u "demo-key");
     GPTHTMLFraudDetector.import_openai := Ok tt;
     GPTHTMLFraudDetector.openai_client := Ok tt;
     GPTHTMLFraudDetector.chat_completions_create := fun _ => c |}.

Definition demo_post_text : str :=
  u "URGENT! Luxury beach resort in Goa - 70% OFF! Send advance payment via UPI now.".







(** ** The keyword-search pipeline *)

(** The content check of [_search_keyword]: the content is truthy and has
    at least 20 characters. *)
Definition meaningful (content : pyval) : Prop :=
  truthy content = true /\ exists n, len content = Some n /\ 20 <= n.

Definition content_ok (d : dict) : Prop :=
  exists content, get (u "content") d = Some content /\ meaningful content.

(** The score of the dict is a float at or above the threshold. *)
Definition accepted (d : dict) : Prop :=
  exists s, get (u "fraud_score") d = Some (PFloat s) /\ ge s 0.5 = true.

Lemma retain_posts (pd fr : dict) (b : bool) (st : SearchScraper.state) :
  SearchScraper.posts (SearchScraper.retain pd fr b st) = SearchScraper.posts st ++ [pd].
Proof. now destruct b. Qed.

Lemma retain_sink (pd fr : dict) (b : bool) (st : SearchScraper.state) :
  SearchScraper.sink (SearchScraper.retain pd fr b st)
  = SearchScraper.sink st ++ (if b then [store_post pd; create_fraud_alert pd fr] else []).
Proof. destruct b; simpl; [reflexivity | now rewrite app_nil_r]. Qed.

Section Search.
Context {lib : PyLib}.

Lemma build_post_data_inv e keyword idx el fr pd b :
  SearchScraper.build_post_data e keyword idx el fr = Ok (Some (pd, b)) ->
  exists content score,
    get (u "content") fr = Some content
    /\ meaningful content
    /\ get (u "fraud_score") fr = Some score
    /\ py_ge score 0.5 = Ok b
    /\ get (u "content") pd = Some content
    /\ get (u "fraud_score") pd = Some score
    /\ get (u "username") pd = get (u "username") fr
    /\ get (u "keyword") pd = Some (PStr keyword)
    /\ truthy (get_default (u "screenshot_path") PNone pd) = b
    /\ truthy (get_default (u "screenshot_filename") PNone pd) = b.
Proof.
  unfold SearchScraper.build_post_data, item, py_len, bind.
  destruct (get (u "content") fr) as [content|] eqn:Hc; [|discriminate].
  destruct (truthy content) eqn:Ht; cbn [negb]; [|discriminate].
  destruct (len content) as [n|] eqn:Hn; [|discriminate].
  destruct (n <? 20) eqn:Hlt; [discriminate|].
  destruct (get (u "username") fr) as [username|] eqn:Hu; [|discriminate].
  destruct (get (u "language") fr) as [language|]; [|discriminate].
  cbv zeta.
  destruct (get (u "fraud_score") fr) as [score|] eqn:Hs; [|discriminate].
  destruct (py_ge score 0.5) as [b'|] eqn:Hge; [|discriminate].
  destruct (get (u "risk_level") fr) as [risk_level|]; [|discriminate].
  destruct (get (u "fraud_type") fr) as [fraud_type|]; [|discriminate].
  destruct (get (u "matched_keywords") fr) as [matched_keywords|]; [|discriminate].
  destruct (get (u "red_flags") fr) as [red_flags|]; [|discriminate].
  destruct (get (u "reasoning") fr) as [reasoning|]; [|discriminate].
  intros [= <- <-]. exists content, score.
  apply Nat.ltb_ge in Hlt.
  split; [reflexivity|]. split; [split; [exact Ht | now exists n]|].
  split; [reflexivity|]. split; [exact Hge|].
  unfold get_default.
  repeat split; dict_get; try reflexivity.
  - destruct b'; [|reflexivity].
    destruct (SearchScraper.screenshots_dir e); reflexivity.
  - destruct b'; reflexivity.
Qed.

(** The fallback result does not pass the content check. *)
Lemma build_post_data_fallback e keyword idx el :
  SearchScraper.build_post_data e keyword idx el GPTHTMLFraudDetector._fallback_analysis
  = Ok None.
Proof.
  unfold SearchScraper.build_post_data, item, bind.
  unfold GPTHTMLFraudDetector._fallback_analysis. dict_get. reflexivity.
Qed.

(** The post reaches the analysis, which returns [fr]. *)
Definition analysed (e : SearchScraper.env) (el : SearchScraper.post_element)
    (fr : dict) : Prop :=
  SearchScraper.is_sponsored el = false
  /\ SearchScraper.test_mode e = false
  /\ exists html,
       SearchScraper.inner_html el = Ok html
       /\ (length html <? 100) = false
       /\ (length (SearchScraper._extract_text_from_html e html) <? 50) = false
       /\ GPTHTMLFraudDetector.analyze_post_html (SearchScraper.detector el)
            (SearchScraper._extract_text_from_html e html) = Ok fr.

(** The iteration for a post that reaches the analysis. *)
Lemma process_post_analysed e keyword idx el st fr :
  analysed e el fr ->
  SearchScraper.process_post e keyword idx el st
  = match SearchScraper.build_post_data e keyword idx el fr with
    | Ok (Some (pd, b)) => SearchScraper.retain pd fr b st
    | _ => st
    end.
Proof.
  intros (Hs & Ht & html & Hh & L1 & L2 & A).
  unfold SearchScraper.process_post. rewrite Hs, Hh, Ht, L1, L2, A.
  assert (T1 : truthy (PStr html) = true).
  { destruct html; [discriminate L1 | reflexivity]. }
  assert (T2 : truthy (PStr (SearchScraper._extract_text_from_html e html)) = true).
  { destruct (SearchScraper._extract_text_from_html e html);
      [discriminate L2 | reflexivity]. }
  rewrite T1, T2. cbn [negb orb].
  destruct (SearchScraper.build_post_data e keyword idx el fr) as [[[pd b]|]|];
    reflexivity.
Qed.

(** One iteration either leaves the returned list and the calls as they
    were, or reaches the retention decision with an analysis result. *)
Lemma process_post_cases e keyword idx el st :
  (SearchScraper.posts (SearchScraper.process_post e keyword idx el st)
     = SearchScraper.posts st
   /\ SearchScraper.sink (SearchScraper.process_post e keyword idx el st)
     = SearchScraper.sink st)
  \/ (exists html fr pd b,
         SearchScraper.inner_html el = Ok html
         /\ GPTHTMLFraudDetector.analyze_post_html (SearchScraper.detector el)
              (SearchScraper._extract_text_from_html e html) = Ok fr
         /\ SearchScraper.build_post_data e keyword idx el fr = Ok (Some (pd, b))
         /\ SearchScraper.process_post e keyword idx el st
            = SearchScraper.retain pd fr b st).
Proof.
  unfold SearchScraper.process_post.
  destruct (SearchScraper.is_sponsored el); [left; split; reflexivity|].
  destruct (SearchScraper.inner_html el) as [html|]; [|left; split; reflexivity].
  destruct (_ || _); [left; split; reflexivity|].
  destruct (_ || _); [left; split; reflexivity|].
  destruct (SearchScraper.test_mode e).
  { destruct (SearchScraper.save_ok el); left; split; reflexivity. }
  destruct (GPTHTMLFraudDetector.analyze_post_html _ _) as [fr|] eqn:A;
    [|left; split; reflexivity].
  destruct (SearchScraper.build_post_data e keyword idx el fr) as [[[pd b]|]|] eqn:E;
    try (left; split; reflexivity).
  right. exists html, fr, pd, b. repeat split; assumption.
Qed.

(** An induction principle for the loop. *)
Lemma loop_invariant (P : SearchScraper.state -> Prop) e keyword max_posts :
  (forall idx el st, P st -> P (SearchScraper.process_post e keyword idx el st)) ->
  forall els idx st, P st -> P (SearchScraper.loop e keyword max_posts idx els st).
Proof.
  intros Hstep els. induction els as [|el rest IH]; intros idx st Hst; simpl;
    [assumption|].
  destruct (max_posts <=? _); [assumption|]. apply IH, Hstep, Hst.
Qed.

(** The score of a result of the adapter is a float. *)
Lemma adapter_score_float (d : dict) (v : pyval) :
  fallback_or_normalized d -> get (u "fraud_score") d = Some v ->
  exists s, v = PFloat s.
Proof.
  intros H G. apply fallback_or_normalized_range in H as (s & Hs & _).
  rewrite Hs in G. injection G as <-. now exists s.
Qed.

(** What a call to the storing functions carries. *)
Definition persisted_ok (posts : list dict) (c : sink_call) : Prop :=
  match c with
  | store_post pd => In pd posts /\ accepted pd /\ content_ok pd
  | create_fraud_alert pd fr =>
    In pd posts /\ accepted pd /\ content_ok pd
    /\ accepted fr /\ content_ok fr /\ fr <> GPTHTMLFraudDetector._fallback_analysis
  | store_fraud_post _ _ => False
  end.

(** A returned post has a float score, and was stored and alerted when the
    score is at or above the threshold. *)
Definition returned_ok (sink : list sink_call) (pd : dict) : Prop :=
  content_ok pd
  /\ exists s, get (u "fraud_score") pd = Some (PFloat s)
       /\ (ge s 0.5 = true ->
           In (store_post pd) sink /\ exists fr, In (create_fraud_alert pd fr) sink).

Definition search_inv (st : SearchScraper.state) : Prop :=
  Forall (persisted_ok (SearchScraper.posts st)) (SearchScraper.sink st)
  /\ Forall (returned_ok (SearchScraper.sink st)) (SearchScraper.posts st).

Lemma persisted_ok_mono (posts more : list dict) (c : sink_call) :
  persisted_ok posts c -> persisted_ok (posts ++ more) c.
Proof.
  destruct c as [pd|pd fr|]; simpl; [| |easy].
  - intros (H & R). split; [apply in_or_app; now left | exact R].
  - intros (H & R). split; [apply in_or_app; now left | exact R].
Qed.

Lemma returned_ok_mono (sink more : list sink_call) (pd : dict) :
  returned_ok sink pd -> returned_ok (sink ++ more) pd.
Proof.
  intros (C & s & G & H). split; [exact C|]. exists s. split; [exact G|].
  intros A. destruct (H A) as (S1 & fr & S2).
  split; [apply in_or_app; now left|]. exists fr. apply in_or_app; now left.
Qed.

Lemma content_not_fallback (fr : dict) :
  content_ok fr -> fr <> GPTHTMLFraudDetector._fallback_analysis.
Proof.
  intros (c & G & T & _) ->. 
  assert (F : get (u "content") GPTHTMLFraudDetector._fallback_analysis = Some (PStr []))
    by (vm_compute; reflexivity).
  rewrite F in G. injection G as <-. discriminate.
Qed.

Lemma process_post_inv e keyword idx el st :
  search_inv st -> search_inv (SearchScraper.process_post e keyword idx el st).
Proof.
  intros [Hs Hp].
  destruct (process_post_cases e keyword idx el st)
    as [[Ep Es]|(html & fr & pd & b & _ & Hfr & B & ->)].
  { unfold search_inv. now rewrite Ep, Es. }
  pose proof (analyze_post_html_result (SearchScraper.detector el)
                (SearchScraper._extract_text_from_html e html)) as R.
  rewrite Hfr in R. simpl in R. clear Hfr.
  apply build_post_data_inv in B
    as (content & score & Gc & M & Gs & Hge & Pc & Ps & _).
  destruct (adapter_score_float fr score R Gs) as (s & ->).
  simpl in Hge. injection Hge as <-.
  assert (Cpd : content_ok pd) by (now exists content).
  assert (Cfr : content_ok fr) by (now exists content).
  unfold search_inv. rewrite retain_posts, retain_sink. split.
  - apply Forall_app. split.
    + revert Hs. apply Forall_impl. intros c. apply persisted_ok_mono.
    + destruct (ge s 0.5) eqn:A; [|constructor].
      assert (Hin : In pd (SearchScraper.posts st ++ [pd]))
        by (apply in_or_app; right; now left).
      assert (Apd : accepted pd) by (now exists s).
      assert (Afr : accepted fr) by (now exists s).
      repeat constructor; try assumption.
      now apply content_not_fallback.
  - apply Forall_app. split.
    + revert Hp. apply Forall_impl. intros c. apply returned_ok_mono.
    + constructor; [|constructor].
      split; [exact Cpd|]. exists s. split; [exact Ps|].
      intros A. rewrite A. split.
      * apply in_or_app. right. now left.
      * exists fr. apply in_or_app. right. right. now left.
Qed.

Lemma search_keyword_inv e page keyword max_posts :
  let r := SearchScraper._search_keyword e page keyword max_posts in
  Forall (persisted_ok (fst r)) (snd r) /\ Forall (returned_ok (snd r)) (fst r).
Proof.
  unfold SearchScraper._search_keyword. destruct page as [els|]; cbv zeta.
  - apply (loop_invariant search_inv).
    + intros idx el st. apply process_post_inv.
    + split; constructor.
  - split; constructor.
Qed.

(** A failed analysis leaves the returned list and the calls as they were. *)
Lemma failed_analysis_not_stored e keyword idx el st html :
  SearchScraper.inner_html el = Ok html ->
  html_failure (SearchScraper.detector el) (SearchScraper._extract_text_from_html e html) ->
  SearchScraper.posts (SearchScraper.process_post e keyword idx el st)
    = SearchScraper.posts st
  /\ SearchScraper.sink (SearchScraper.process_post e keyword idx el st)
    = SearchScraper.sink st.
Proof.
  intros Hh F.
  destruct (process_post_cases e keyword idx el st)
    as [H|(html' & fr & pd & b & Hh' & A & B & _)]; [exact H|].
  rewrite Hh in Hh'. injection Hh' as <-.
  pose proof (html_failure_outcome _ _ F) as O. rewrite A in O. subst fr.
  rewrite build_post_data_fallback in B. discriminate.
Qed.

(** The rows the two storing functions insert carry the content of the
    post unchanged. *)
Lemma store_post_row_content (pd row : dict) :
  SearchScraper._store_post_params pd = Ok row ->
  get (u "content") row = get (u "content") pd
  /\ get (u "author_name") row = get (u "username") pd.
Proof.
  unfold SearchScraper._store_post_params, bind.
  destruct (SearchScraper.source_id pd); [|discriminate].
  unfold item.
  destruct (get (u "keyword") pd); [|discriminate].
  destruct (get (u "username") pd); [|discriminate].
  destruct (get (u "content") pd); [|discriminate].
  destruct (if truthy (get_default (u "screenshot_path") PNone pd) then _ else _);
    [|discriminate].
  destruct (get (u "timestamp") pd); [|discriminate].
  destruct (get (u "fraud_score") pd) as [score|]; [|discriminate].
  destruct (get (u "risk_level") pd); [|discriminate].
  destruct (get (u "fraud_type") pd); [|discriminate].
  destruct (get (u "matched_keywords") pd); [|discriminate].
  destruct (get (u "red_flags") pd); [|discriminate].
  destruct (get (u "reasoning") pd); [|discriminate].
  destruct (get (u "language") pd); [|discriminate].
  destruct (py_ge score 0.5); [|discriminate].
  intros [= <-]. split; dict_get; reflexivity.
Qed.

Lemma create_fraud_alert_row_content (pd fr row : dict) :
  SearchScraper._create_fraud_alert_params pd fr = Ok row ->
  get (u "content_text") row = get (u "content") pd
  /\ get (u "confidence_score") row = get (u "fraud_score") fr
  /\ get (u "status") row = Some (PStr (u "open")).
Proof.
  unfold SearchScraper._create_fraud_alert_params, bind.
  destruct (SearchScraper.source_id pd); [|discriminate].
  unfold item.
  destruct (get (u "content") pd); [|discriminate].
  destruct (get (u "fraud_score") fr); [|discriminate].
  destruct (get (u "risk_level") fr); [|discriminate].
  destruct (get (u "fraud_type") fr); [|discriminate].
  destruct (get (u "matched_keywords") fr); [|discriminate].
  destruct (get (u "keyword") pd); [|discriminate].
  destruct (get (u "username") pd); [|discriminate].
  destruct (get (u "language") pd); [|discriminate].
  destruct (get (u "red_flags") pd); [|discriminate].
  destruct (get (u "reasoning") pd); [|discriminate].
  intros [= <-]. repeat split; dict_get; reflexivity.
Qed.

Lemma content_not_vision_fallback (fr : dict) :
  content_ok fr -> fr <> GPTVisionFraudDetector._fallback_analysis.
Proof.
  intros (c & G & T & _) ->.
  assert (F : get (u "content") GPTVisionFraudDetector._fallback_analysis
              = Some (PStr [])) by (vm_compute; reflexivity).
  rewrite F in G. injection G as <-. discriminate.
Qed.

(** A result of the adapter that passes the content check gives the post
    data, with the comparison of its score with the threshold. *)
Lemma build_post_data_content_ok e keyword idx el fr :
  fallback_or_normalized fr -> content_ok fr ->
  exists pd s,
    get (u "fraud_score") fr = Some (PFloat s)
    /\ SearchScraper.build_post_data e keyword idx el fr = Ok (Some (pd, ge s 0.5))
    /\ get (u "fraud_score") pd = Some (PFloat s).
Proof.
  intros [[->| ->]|(a & x & ->)] C.
  - now apply content_not_fallback in C.
  - now apply content_not_vision_fallback in C.
  - destruct C as (c & Gc & T & n & Ln & Hn).
    rewrite normalized_content in Gc. injection Gc as Gc.
    apply Nat.ltb_ge in Hn.
    eexists. exists (clamp x). split; [apply normalized_score|].
    split.
    + unfold SearchScraper.build_post_data, item, py_len, bind.
      unfold normalized_of. cbv zeta. repeat dict_step.
      rewrite Gc, T, Ln, Hn. cbn [negb py_ge]. reflexivity.
    + dict_get. reflexivity.
Qed.

(** The retention decision for a post that reaches the analysis. *)
Lemma process_post_decision e keyword idx el st fr :
  analysed e el fr ->
  (content_ok fr ->
   exists pd s,
     get (u "fraud_score") fr = Some (PFloat s)
     /\ get (u "fraud_score") pd = Some (PFloat s)
     /\ SearchScraper.posts (SearchScraper.process_post e keyword idx el st)
        = SearchScraper.posts st ++ [pd]
     /\ SearchScraper.sink (SearchScraper.process_post e keyword idx el st)
        = SearchScraper.sink st
          ++ (if ge s 0.5 then [store_post pd; create_fraud_alert pd fr] else []))
  /\ (~ content_ok fr ->
      SearchScraper.posts (SearchScraper.process_post e keyword idx el st)
        = SearchScraper.posts st
      /\ SearchScraper.sink (SearchScraper.process_post e keyword idx el st)
        = SearchScraper.sink st).
Proof.
  intros H. rewrite (process_post_analysed e keyword idx el st fr H).
  destruct H as (_ & _ & html & _ & _ & _ & A).
  pose proof (analyze_post_html_result (SearchScraper.detector el)
                (SearchScraper._extract_text_from_html e html)) as R.
  rewrite A in R. simpl in R. split.
  - intros C.
    destruct (build_post_data_content_ok e keyword idx el fr R C)
      as (pd & s & Gs & B & Ps).
    rewrite B. exists pd, s. rewrite retain_posts, retain_sink. now repeat split.
  - intros NC.
    destruct (SearchScraper.build_post_data e keyword idx el fr) as [[[pd b]|]|] eqn:B;
      try (split; reflexivity).
    exfalso. apply NC.
    apply build_post_data_inv in B as (content & score & Gc & M & _).
    now exists content.
Qed.

End Search.



(** *** A concrete search page *)

(** The visible text of markup that has no script, style or svg element
    and a single text node: what stands outside the angle brackets. *)
Fixpoint strip_tags (in_tag : bool) (s : str) : str :=
  match s with
  | [] => []
  | c :: r =>
    if (c =? 60)%N then strip_tags true r
    else if (c =? 62)%N then (if in_tag then strip_tags false r else c :: strip_tags false r)
    else if in_tag then strip_tags true r
    else c :: strip_tags false r
  end.

Definition demo_search_env : SearchScraper.env :=
  {| SearchScraper.test_mode := false;
     SearchScraper.screenshots_dir := u "data/screenshots";
     SearchScraper.soup_get_text := fun html => Ok (strip_tags false html) |}.

Definition demo_html : str :=
  u "<div role=article><div dir=auto><span>" ++ demo_post_text ++ u "</span></div></div>".

(** An organic post whose analysis the backend answers with [c]. *)
Definition demo_element (c : GPTHTMLFraudDetector.completion) : SearchScraper.post_element :=
  {| SearchScraper.is_sponsored := false;
     SearchScraper.inner_html := Ok demo_html;
     SearchScraper.save_ok := true;
     SearchScraper.detector := demo_env c;
     SearchScraper.strftime_now := u "20250101_120000";
     SearchScraper.isoformat_now := u "2025-01-01T12:00:00" |}.

Definition demo_search (c : GPTHTMLFraudDetector.completion) : list dict * list sink_call :=
  @SearchScraper._search_keyword Demo.lib demo_search_env (Ok [demo_element c])
    (u "goa hotel") 5.

(** ** C1: the retention threshold *)

(** The text the analysis of the concrete post receives. *)
Definition demo_clean_text : str :=
  @SearchScraper._extract_text_from_html Demo.lib demo_search_env demo_html.

(** A reply with score 0.9 whose extracted content has 16 characters. *)
Definition short_content_result : dict :=
  normalized_of
    [ (u "fraud_score", PFloat 0.9); (u "content", PStr (u "Pay via UPI now!")) ] 0.9.

(** C1, as stated, fails: the post is analysed with score 0.9, above the
    threshold, and is neither returned nor stored nor alerted, because its
    extracted content has fewer than 20 characters. *)
Lemma C1_counterexample :
  @GPTHTMLFraudDetector.analyze_post_html Demo.lib
    (demo_env (GPTHTMLFraudDetector.Content (Some Demo.response_short))) demo_clean_text
  = Ok short_content_result
  /\ get (u "fraud_score") short_content_result = Some (PFloat 0.9)
  /\ ge 0.9 0.5 = true
  /\ len (get_default (u "content") PNone short_content_result) = Some 16
  /\ demo_search (GPTHTMLFraudDetector.Content (Some Demo.response_short)) = ([], []).
Proof. split; [|split; [|split; [|split]]]; vm_compute; reflexivity. Qed.

(** C1 (amended). In the keyword search, a post whose analysis returns a
    content that is non-empty with at least 20 characters is accepted
    (stored and alerted) if and only if its fraud score is at least 0.5: it
    is appended to the returned list, and [_store_post] and
    [_create_fraud_alert] are called for it exactly when the score s
    satisfies s >= 0.5.  A post whose extracted content is empty or shorter
    is dropped before the threshold test, whatever its score.  Over a whole
    search, every call to the storing functions is for a returned post with
    s >= 0.5, a returned post with s >= 0.5 has both calls and one below has
    neither.  A score of exactly 0.5 is accepted, a score of 0.4999 is
    discarded and nothing is stored for it. *)
Theorem C1_retention_threshold :
  (forall (lib : PyLib) e keyword idx el st fr,
      analysed e el fr ->
      let st' := SearchScraper.process_post e keyword idx el st in
      (content_ok fr ->
       exists pd s,
         get (u "fraud_score") fr = Some (PFloat s)
         /\ get (u "fraud_score") pd = Some (PFloat s)
         /\ SearchScraper.posts st' = SearchScraper.posts st ++ [pd]
         /\ SearchScraper.sink st'
            = SearchScraper.sink st
              ++ (if ge s 0.5 then [store_post pd; create_fraud_alert pd fr] else []))
      /\ (~ content_ok fr ->
          SearchScraper.posts st' = SearchScraper.posts st
          /\ SearchScraper.sink st' = SearchScraper.sink st))
  /\ (forall (lib : PyLib) e page keyword max_posts,
      let r := SearchScraper._search_keyword e page keyword max_posts in
      (forall c, In c (snd r) ->
         match c with
         | store_post pd => In pd (fst r) /\ accepted pd
         | create_fraud_alert pd fr => In pd (fst r) /\ accepted pd /\ accepted fr
         | store_fraud_post _ _ => False
         end)
      /\ (forall pd, In pd (fst r) ->
            exists s, get (u "fraud_score") pd = Some (PFloat s)
              /\ if ge s 0.5
                 then In (store_post pd) (snd r)
                      /\ exists fr, In (create_fraud_alert pd fr) (snd r)
                 else ~ In (store_post pd) (snd r)
                      /\ forall fr, ~ In (create_fraud_alert pd fr) (snd r)))
  /\ (exists pd fr,
         demo_search (GPTHTMLFraudDetector.Content (Some Demo.response_boundary))
         = ([pd], [store_post pd; create_fraud_alert pd fr])
         /\ get (u "fraud_score") pd = Some (PFloat 0.5))
  /\ (exists pd,
         demo_search (GPTHTMLFraudDetector.Content (Some Demo.response_clean))
         = ([pd], [])
         /\ get (u "fraud_score") pd = Some (PFloat 0.4999)).
Proof.
  split; [|split; [|split]].
  - intros lib e keyword idx el st fr H st'. subst st'.
    now apply process_post_decision.
  - intros lib e page keyword max_posts r.
    destruct (search_keyword_inv e page keyword max_posts) as [Hs Hp].
    fold r in Hs, Hp. rewrite Forall_forall in Hs, Hp. split.
    + intros c Hc. specialize (Hs c Hc). destruct c as [pd|pd fr|]; simpl in Hs.
      * now destruct Hs as (H1 & H2 & _).
      * now destruct Hs as (H1 & H2 & _ & H3 & _).
      * exact Hs.
    + intros pd Hpd. destruct (Hp pd Hpd) as (_ & s & G & H).
      exists s. split; [exact G|].
      destruct (ge s 0.5) eqn:A; [now apply H|].
      assert (N : ~ accepted pd).
      { intros (s' & G' & A'). rewrite G in G'. injection G' as <-. congruence. }
      split.
      * intros Hin. apply N. now destruct (Hs _ Hin) as (_ & H2 & _).
      * intros fr Hin. apply N. now destruct (Hs _ Hin) as (_ & H2 & _).
  - let r := eval vm_compute in
        (demo_search (GPTHTMLFraudDetector.Content (Some Demo.response_boundary))) in
    lazymatch r with
    | (_, [store_post ?pd; create_fraud_alert _ ?fr]) => exists pd, fr
    end.
    split; vm_compute; reflexivity.
  - let r := eval vm_compute in
        (demo_search (GPTHTMLFraudDetector.Content (Some Demo.response_clean))) in
    lazymatch r with
    | ([?pd], _) => exists pd
    end.
    split; vm_compute; reflexivity.
Qed.

(** The reply with score exactly 0.5 and a content of 35 characters. *)
Definition boundary_result : dict :=
  normalized_of
    [ (u "fraud_score", PFloat 0.5);
      (u "content", PStr (u "Limited offer, book your stay today")) ] 0.5.

(** The post with score exactly 0.5 reaches the decision and is stored and
    alerted. *)
Lemma C1_witness :
  @analysed Demo.lib demo_search_env
    (demo_element (GPTHTMLFraudDetector.Content (Some Demo.response_boundary)))
    boundary_result
  /\ content_ok boundary_result
  /\ exists pd s,
       get (u "fraud_score") boundary_result = Some (PFloat s)
       /\ get (u "fraud_score") pd = Some (PFloat s)
       /\ SearchScraper.posts
            (@SearchScraper.process_post Demo.lib demo_search_env (u "goa hotel") 0
               (demo_element (GPTHTMLFraudDetector.Content (Some Demo.response_boundary)))
               SearchScraper.init)
          = SearchScraper.posts SearchScraper.init ++ [pd]
       /\ SearchScraper.sink
            (@SearchScraper.process_post Demo.lib demo_search_env (u "goa hotel") 0
               (demo_element (GPTHTMLFraudDetector.Content (Some Demo.response_boundary)))
               SearchScraper.init)
          = SearchScraper.sink SearchScraper.init
            ++ (if ge s 0.5
                then [store_post pd; create_fraud_alert pd boundary_result]
                else []).
Proof.
  assert (A : @analysed Demo.lib demo_search_env
                (demo_element (GPTHTMLFraudDetector.Content (Some Demo.response_boundary)))
                boundary_result).
  { split; [reflexivity|]. split; [reflexivity|]. exists demo_html.
    split; [reflexivity|]. split; [vm_compute; reflexivity|].
    split; vm_compute; reflexivity. }
  assert (C : content_ok boundary_result).
  { exists (PStr (u "Limited offer, book your stay today")).
    split; [vm_compute; reflexivity|]. split; [vm_compute; reflexivity|].
    exists 35. split; [vm_compute; reflexivity|]. apply Nat.leb_le. vm_compute. reflexivity. }
  split; [exact A|]. split; [exact C|].
  exact (proj1 (proj1 C1_retention_threshold Demo.lib demo_search_env (u "goa hotel") 0
                  _ SearchScraper.init boundary_result A) C).
Defined.

(** ** C10: the content check of the keyword search *)

(** C10. In the keyword search every call to [_store_post] and
    [_create_fraud_alert] is for an analysis result whose content is
    non-empty with at least 20 characters, and the rows they insert carry
    that content ([content], [content_text]); the fallback result has an
    empty content, so a failed analysis leaves the returned list and the
    calls as they were. *)
Theorem C10_only_meaningful_content_persisted :
  forall (lib : PyLib) (e : SearchScraper.env),
    (forall page keyword max_posts c,
        In c (snd (SearchScraper._search_keyword e page keyword max_posts)) ->
        match c with
        | store_post pd =>
          content_ok pd
          /\ forall row, SearchScraper._store_post_params pd = Ok row -> content_ok row
        | create_fraud_alert pd fr =>
          content_ok fr
          /\ fr <> GPTHTMLFraudDetector._fallback_analysis
          /\ forall row, SearchScraper._create_fraud_alert_params pd fr = Ok row ->
               exists content,
                 get (u "content_text") row = Some content /\ meaningful content
        | store_fraud_post _ _ => False
        end)
    /\ (forall keyword idx el st html,
           SearchScraper.inner_html el = Ok html ->
           html_failure (SearchScraper.detector el)
             (SearchScraper._extract_text_from_html e html) ->
           SearchScraper.posts (SearchScraper.process_post e keyword idx el st)
             = SearchScraper.posts st
           /\ SearchScraper.sink (SearchScraper.process_post e keyword idx el st)
             = SearchScraper.sink st)
    /\ get (u "content") GPTHTMLFraudDetector._fallback_analysis = Some (PStr []).
Proof.
  intros lib e. split; [|split].
  - intros page keyword max_posts c Hc.
    destruct (search_keyword_inv e page keyword max_posts) as [Hs _].
    rewrite Forall_forall in Hs. specialize (Hs c Hc).
    destruct c as [pd|pd fr|]; simpl in Hs; [| |exact Hs].
    + destruct Hs as (_ & _ & C). split; [exact C|].
      intros row R. apply store_post_row_content in R as [R _].
      destruct C as (content & G & M). exists content. split; [congruence | exact M].
    + destruct Hs as (_ & _ & C & _ & Cfr & N). split; [exact Cfr|]. split; [exact N|].
      intros row R. apply create_fraud_alert_row_content in R as [R _].
      destruct C as (content & G & M). exists content. split; [congruence | exact M].
  - intros keyword idx el st html. apply failed_analysis_not_stored.
  - vm_compute. reflexivity.
Qed.

(** A backend call that raises: the post is neither returned nor stored. *)
Lemma C10_witness :
  SearchScraper.posts
    (@SearchScraper.process_post Demo.lib demo_search_env (u "goa hotel") 0
       (demo_element (GPTHTMLFraudDetector.Raises OtherException)) SearchScraper.init) = []
  /\ SearchScraper.sink
       (@SearchScraper.process_post Demo.lib demo_search_env (u "goa hotel") 0
          (demo_element (GPTHTMLFraudDetector.Raises OtherException)) SearchScraper.init) = [].
Proof.
  assert (F : @html_failure Demo.lib
                (SearchScraper.detector (demo_element (GPTHTMLFraudDetector.Raises OtherException)))
                (@SearchScraper._extract_text_from_html Demo.lib demo_search_env demo_html))
    by (apply (call_raises _ _ OtherException); reflexivity).
  exact (proj1 (proj2 (C10_only_meaningful_content_persisted Demo.lib demo_search_env))
           (u "goa hotel") 0 (demo_element (GPTHTMLFraudDetector.Raises OtherException))
           SearchScraper.init demo_html eq_refl F).
Defined.


(** ** C5: the status update of an alert *)

Lemma status_of_sql_update_same (table : list Threats.alert) (threat_id : Z)
    (new_status : str) :
  Threats.status_of (Threats.sql_update table threat_id new_status) threat_id
  = match Threats.status_of table threat_id with
    | Some _ => Some new_status
    | None => None
    end.
Proof.
  unfold Threats.status_of, Threats.sql_update.
  induction table as [|a table IH]; [reflexivity|].
  simpl. destruct (Threats.id a =? threat_id)%Z eqn:E; simpl; rewrite E; [reflexivity|].
  exact IH.
Qed.

Lemma status_of_sql_update_other (table : list Threats.alert) (threat_id other : Z)
    (new_status : str) :
  other <> threat_id ->
  Threats.status_of (Threats.sql_update table threat_id new_status) other
  = Threats.status_of table other.
Proof.
  intros N. unfold Threats.status_of, Threats.sql_update.
  induction table as [|a table IH]; [reflexivity|].
  simpl. destruct (Threats.id a =? threat_id)%Z eqn:E; simpl.
  - apply Z.eqb_eq in E.
    assert (E' : (Threats.id a =? other)%Z = false) by (apply Z.eqb_neq; congruence).
    rewrite E'. exact IH.
  - destruct (Threats.id a =? other)%Z; [reflexivity | exact IH].
Qed.

Lemma returning_status_of (table : list Threats.alert) (threat_id : Z) :
  Threats.returning table threat_id
  = match Threats.status_of table threat_id with
    | Some _ => Some threat_id
    | None => None
    end.
Proof.
  unfold Threats.returning, Threats.status_of.
  induction table as [|a table IH]; [reflexivity|].
  simpl. destruct (Threats.id a =? threat_id)%Z eqn:E; [|exact IH].
  apply Z.eqb_eq in E. now rewrite E.
Qed.

(** An alert that has been resolved. *)
Definition resolved_table : list Threats.alert :=
  [ {| Threats.id := 7; Threats.status := u "resolved"; Threats.columns := [] |} ].

(** C5, as stated, fails: the request to set a resolved alert back to
    [open] passes the validation of the route, succeeds and moves the alert
    from rank 2 (resolved) to rank 0 (open). *)
Lemma C5_counterexample :
  Threats.status_of resolved_table 7 = Some (u "resolved")
  /\ option_map (fun r => (Threats.status_of (fst r) 7, Threats.success (snd r)))
       (@Threats.put_threat_status Demo.lib Threats.Works resolved_table 7 (u "open"))
     = Some (Some (u "open"), true)
  /\ Threats.rank (u "resolved") = Some 2
  /\ Threats.rank (u "open") = Some 0.
Proof. split; [|split; [|split]]; vm_compute; reflexivity. Qed.

(** C5 (amended). The status update sets the status of an existing alert to
    the requested value whatever its current status (no transition is
    refused, none is checked) and reports success with the new status; the
    other alerts keep their status. *)
Theorem C5_status_update_unconditional :
  forall (table : list Threats.alert) (threat_id : Z) (old_status new_status : str),
    Threats.status_of table threat_id = Some old_status ->
    let r := Threats.update_threat_status Threats.Works table threat_id new_status in
    Threats.status_of (fst r) threat_id = Some new_status
    /\ Threats.success (snd r) = true
    /\ Threats.data (snd r)
       = Some [(u "id", PInt threat_id); (u "status", PStr new_status)]
    /\ (forall other, other <> threat_id ->
          Threats.status_of (fst r) other = Threats.status_of table other).
Proof.
  intros table threat_id old_status new_status H r. subst r.
  unfold Threats.update_threat_status. cbn [fst snd].
  rewrite returning_status_of, status_of_sql_update_same, H.
  repeat split. intros other N. now apply status_of_sql_update_other.
Qed.

Lemma C5_witness :
  Threats.status_of resolved_table 7 = Some (u "resolved")
  /\ Threats.status_of
       (fst (Threats.update_threat_status Threats.Works resolved_table 7 (u "open"))) 7
     = Some (u "open").
Proof.
  assert (H : Threats.status_of resolved_table 7 = Some (u "resolved"))
    by (vm_compute; reflexivity).
  split; [exact H|].
  exact (proj1 (C5_status_update_unconditional resolved_table 7 (u "resolved") (u "open") H)).
Defined.

(** ** C8: the classification of the fraud type *)

(** The categories in the order of their priority, each with the words
    that select it. *)
Definition priority_table : list (list str * str) := [
  (map u ["hotel"; "booking"; "resort"; "stay"; "accommodation"]%string,
   u "hotel_booking_scam");
  (map u ["investment"; "returns"; "profit"; "earn"; "income"]%string,
   u "investment_scam");
  (map u ["lottery"; "jackpot"; "satta"; "bet"; "casino"]%string,
   u "gambling_scam");
  (map u ["massage"; "escort"; "companion"; "service"]%string,
   u "prostitution_racket");
  (map u ["certificate"; "passport"; "license"; "aadhaar"; "pan"]%string,
   u "fake_documents");
  (map u ["bitcoin"; "crypto"; "forex"; "trading"]%string,
   u "cryptocurrency_scam");
  (map u ["advance"; "payment"; "upi"; "transfer"]%string,
   u "advance_payment_fraud")
].

(** A category matches when one of its words occurs in the keyword string. *)
Definition category_matches (keyword_str : str) (category : list str * str) : bool :=
  existsb (fun k => str_in k keyword_str) (fst category).

(** The first matching category wins; none gives the default. *)
Fixpoint first_match (keyword_str : str) (table : list (list str * str)) : str :=
  match table with
  | [] => u "suspicious_content"
  | category :: rest =>
    if category_matches keyword_str category then snd category
    else first_match keyword_str rest
  end.

Lemma first_match_app (keyword_str : str) (pre post : list (list str * str)) :
  forallb (fun c => negb (category_matches keyword_str c)) pre = true ->
  first_match keyword_str (pre ++ post) = first_match keyword_str post.
Proof.
  induction pre as [|c pre IH]; [reflexivity|].
  simpl. intros H. apply andb_true_iff in H as [Hc Hp].
  apply negb_true_iff in Hc. rewrite Hc. auto.
Qed.

Lemma classify_first_match {lib : PyLib} (keywords : list str) (text : str) :
  FraudDetector._classify_fraud_type keywords text
  = first_match (lower (join (u " ") keywords)) priority_table.
Proof.
  unfold FraudDetector._classify_fraud_type, priority_table.
  cbn [first_match category_matches fst snd]. reflexivity.
Qed.

(** C8. The fraud type is a function of the matched keywords alone, joined
    and lower-cased: the categories are tried in the order hotel/booking,
    investment, gambling, adult services, fake documents, cryptocurrency,
    payment fraud, the first one with a word occurring in the keyword
    string wins, and [suspicious_content] is returned when none has. *)
Theorem C8_first_matching_category_wins :
  forall (lib : PyLib) (keywords : list str) (text : str),
    let keyword_str := lower (join (u " ") keywords) in
    FraudDetector._classify_fraud_type keywords text
      = first_match keyword_str priority_table
    /\ (forall text', FraudDetector._classify_fraud_type keywords text'
                      = FraudDetector._classify_fraud_type keywords text)
    /\ map snd priority_table
       = map u ["hotel_booking_scam"; "investment_scam"; "gambling_scam";
                "prostitution_racket"; "fake_documents"; "cryptocurrency_scam";
                "advance_payment_fraud"]%string
    /\ (forall pre category post,
           priority_table = pre ++ category :: post ->
           forallb (fun c => negb (category_matches keyword_str c)) pre = true ->
           category_matches keyword_str category = true ->
           FraudDetector._classify_fraud_type keywords text = snd category)
    /\ (forallb (fun c => negb (category_matches keyword_str c)) priority_table = true ->
        FraudDetector._classify_fraud_type keywords text = u "suspicious_content").
Proof.
  intros lib keywords text keyword_str.
  split; [apply classify_first_match|].
  split; [intros text'; now rewrite !classify_first_match|].
  split; [vm_compute; reflexivity|].
  split.
  - intros pre category post E Hpre Hc.
    rewrite classify_first_match. fold keyword_str. rewrite E.
    rewrite first_match_app by exact Hpre.
    cbn [first_match]. now rewrite Hc.
  - intros H. rewrite classify_first_match. fold keyword_str.
    rewrite <- (app_nil_r priority_table).
    rewrite first_match_app by exact H. reflexivity.
Qed.

(** The keywords "upi payment" and "cheap hotel" match the payment and the
    hotel category; the hotel category comes first. *)
Lemma C8_witness :
  @FraudDetector._classify_fraud_type Demo.lib [u "upi payment"; u "cheap hotel"] []
  = u "hotel_booking_scam".
Proof.
  refine (eq_trans
            (proj1 (proj2 (proj2 (proj2
               (C8_first_matching_category_wins Demo.lib
                  [u "upi payment"; u "cheap hotel"] []))))
               [] (hd ([], []) priority_table) (tl priority_table) _ _ _) _);
    vm_compute; reflexivity.
Defined.


(** ** C6: a batch of the feed *)

Section Feed.
Context {lib : PyLib}.

(** The score the lexical scorer gives to the content of a feed post. *)
Definition feed_score (post : dict) : option float :=
  match get_default (u "content") (PStr []) post with
  | PStr text =>
    match get (u "fraud_score") (FraudDetector.analyze_text text) with
    | Some (PFloat s) => Some s
    | _ => None
    end
  | _ => None
  end.

(** The post scores below the threshold. *)
Definition scores_below (post : dict) : bool :=
  match feed_score post with
  | Some s => negb (ge s 0.5)
  | None => false
  end.

Lemma analyze_text_score (text : str) :
  exists s, get (u "fraud_score") (FraudDetector.analyze_text text) = Some (PFloat s)
            /\ (text = [] -> s = 0.0%float).
Proof.
  destruct (analyze_text_cases text) as [H|H].
  - rewrite (analyze_text_no_content text H). exists 0.0%float.
    split; [vm_compute|]; reflexivity.
  - rewrite (analyze_text_content text H). exists (lexical_score text).
    split; [dict_get; reflexivity|].
    intros ->. now destruct H as (c & [] & _).
Qed.

Lemma batch_loop_below e pre rest fraud_posts sink :
  forallb scores_below pre = true ->
  FeedScraper.batch_loop e (pre ++ rest) fraud_posts sink
  = FeedScraper.batch_loop e rest fraud_posts sink.
Proof.
  induction pre as [|post pre IH]; intros H; [reflexivity|].
  cbn [forallb] in H. apply andb_true_iff in H as [Hp Hr].
  cbn [app FeedScraper.batch_loop].
  unfold scores_below, feed_score in Hp.
  destruct (get_default (u "content") (PStr []) post) as [| | | |text| |];
    try discriminate.
  destruct (truthy (PStr text)); cbn [negb]; [|now apply IH].
  unfold get_default at 1.
  destruct (get (u "fraud_score") (FraudDetector.analyze_text text))
    as [[| | |s| | |]|]; try discriminate.
  cbn [py_ge]. apply negb_true_iff in Hp. rewrite Hp. now apply IH.
Qed.

(** A batch in which exactly the post [p] reaches the threshold: the one
    call made is [_store_fraud_post] for [p], whatever the database does. *)
Lemma batch_one_fraud e pre p post text s :
  forallb scores_below pre = true ->
  forallb scores_below post = true ->
  get_default (u "content") (PStr []) p = PStr text ->
  get (u "fraud_score") (FraudDetector.analyze_text text) = Some (PFloat s) ->
  ge s 0.5 = true ->
  snd (FeedScraper._process_batch_with_ai e (pre ++ p :: post))
  = [store_fraud_post p (FraudDetector.analyze_text text)].
Proof.
  intros Hpre Hpost Hc Hs Hge.
  unfold FeedScraper._process_batch_with_ai.
  rewrite (batch_loop_below e pre (p :: post) [] [] Hpre).
  cbn [FeedScraper.batch_loop]. rewrite Hc.
  assert (T : truthy (PStr text) = true).
  { destruct text; [|reflexivity].
    destruct (analyze_text_score []) as (s0 & G & Z). rewrite Hs in G.
    injection G as <-. rewrite (Z eq_refl) in Hge. discriminate. }
  rewrite T. cbn [negb]. unfold get_default at 1. rewrite Hs.
  cbn [py_ge]. rewrite Hge. cbn [app length].
  destruct (FeedScraper._store_fraud_post e (FeedScraper.db e 0) p
              (FraudDetector.analyze_text text)) as [fraud_post_id|]; [|reflexivity].
  destruct (truthy fraud_post_id).
  - rewrite <- (app_nil_r post), (batch_loop_below e post [] _ _ Hpost). reflexivity.
  - rewrite <- (app_nil_r post), (batch_loop_below e post [] _ _ Hpost). reflexivity.
Qed.

(** The inserted row has the content and the author of the post. *)
Lemma store_fraud_post_row e post ai_result row :
  FeedScraper._store_fraud_post_params e post ai_result = Ok row ->
  get (u "content") row = Some (get_default (u "content") PNone post)
  /\ get (u "author_name") row = Some (get_default (u "author_name") PNone post)
  /\ get (u "is_fraudulent") row = Some (PBool true)
  /\ get (u "ai_analysis_result") row = Some (PDict ai_result).
Proof.
  unfold FeedScraper._store_fraud_post_params, bind.
  destruct (if truthy (get_default (u "post_url") PNone post) then _ else _)
    as [platform_id|]; [|discriminate].
  intros [= <-]. repeat split; dict_get; reflexivity.
Qed.

End Feed.

(** C6 (amended). For a batch of the feed in which one post reaches the
    threshold (for instance post #3 of 10 with score 0.8) and every other
    post scores below 0.5, exactly one call is made to the storing
    functions: [_store_fraud_post] for that post, with the result of its
    analysis; the row it inserts has the content and the author of the post
    unmodified.  No alert is created on this path. *)
Theorem C6_batch_stores_only_the_fraud_post :
  forall (lib : PyLib) (e : FeedScraper.env) (pre post : list dict) (p : dict)
         (text : str) (s : float),
    forallb scores_below pre = true ->
    forallb scores_below post = true ->
    get_default (u "content") (PStr []) p = PStr text ->
    get (u "fraud_score") (FraudDetector.analyze_text text) = Some (PFloat s) ->
    ge s 0.5 = true ->
    let r := FeedScraper._process_batch_with_ai e (pre ++ p :: post) in
    snd r = [store_fraud_post p (FraudDetector.analyze_text text)]
    /\ existsb is_create_alert (snd r) = false
    /\ (forall row,
           FeedScraper._store_fraud_post_params e p (FraudDetector.analyze_text text)
           = Ok row ->
           get (u "content") row = Some (PStr text)
           /\ get (u "author_name") row = Some (get_default (u "author_name") PNone p)).
Proof.
  intros lib e pre post p text s Hpre Hpost Hc Hs Hge r. subst r.
  rewrite (batch_one_fraud e pre p post text s Hpre Hpost Hc Hs Hge).
  split; [reflexivity|]. split; [reflexivity|].
  intros row R. apply store_fraud_post_row in R as (R1 & R2 & _).
  split; [|exact R2]. rewrite R1. f_equal.
  unfold get_default in *. destruct (get (u "content") p) as [v|]; [exact Hc|].
  injection Hc as <-.
  destruct (analyze_text_score []) as (s0 & G & Z). rewrite Hs in G.
  injection G as <-. rewrite (Z eq_refl) in Hge. discriminate.
Qed.

(** *** The batch of the example *)

Definition feed_post (batch_index : Z) (author_name content : string) : dict :=
  [ (u "author_name", PStr (u author_name));
    (u "content", PStr (u content));
    (u "images", PList []);
    (u "batch_index", PInt batch_index) ].

Definition demo_fraud_post : dict :=
  feed_post 2 "Quick Deals" "urgent hurry immediately last chance".

Definition demo_batch_before : list dict := [
  feed_post 0 "Asha" "Lovely sunset at the beach this evening";
  feed_post 1 "Ravi" "Happy birthday to my dear friend"
].

Definition demo_batch_after : list dict := [
  feed_post 3 "Meera" "Our school reunion was wonderful";
  feed_post 4 "John" "Looking for a good book to read";
  feed_post 5 "Priya" "Monsoon clouds over the hills";
  feed_post 6 "Sam" "Football match was great fun";
  feed_post 7 "Lata" "Trying a new fish curry recipe";
  feed_post 8 "Omar" "Morning walk by the river";
  feed_post 9 "Nina" "My cat sleeps all day long"
].

Definition demo_batch : list dict :=
  demo_batch_before ++ demo_fraud_post :: demo_batch_after.

Definition demo_feed_env : FeedScraper.env :=
  {| FeedScraper.db := fun _ => FeedScraper.Inserted (PInt 41);
     FeedScraper.now := PStr (u "2025-01-01 12:00:00");
     FeedScraper.now_timestamp := u "1735732800.0" |}.

Lemma C6_witness :
  length demo_batch = 10
  /\ nth_error demo_batch 2 = Some demo_fraud_post
  /\ @feed_score Demo.lib demo_fraud_post = Some 0.8%float
  /\ snd (@FeedScraper._process_batch_with_ai Demo.lib demo_feed_env demo_batch)
     = [store_fraud_post demo_fraud_post
          (@FraudDetector.analyze_text Demo.lib (u "urgent hurry immediately last chance"))].
Proof.
  split; [vm_compute; reflexivity|].
  split; [vm_compute; reflexivity|].
  split; [vm_compute; reflexivity|].
  refine (proj1 (C6_batch_stores_only_the_fraud_post Demo.lib demo_feed_env
                   demo_batch_before demo_batch_after demo_fraud_post
                   (u "urgent hurry immediately last chance") 0.8%float _ _ _ _ _));
    vm_compute; reflexivity.
Defined.

(** C6, as stated, fails: for the batch of the example, post #3 scoring 0.8
    and the nine others 0.0, the one call made is [_store_fraud_post]; no
    alert is created. *)
Lemma C6_counterexample :
  length demo_batch = 10
  /\ map (@feed_score Demo.lib) demo_batch
     = [Some 0.0; Some 0.0; Some 0.8; Some 0.0; Some 0.0; Some 0.0; Some 0.0;
        Some 0.0; Some 0.0; Some 0.0]%float
  /\ map is_create_alert
       (snd (@FeedScraper._process_batch_with_ai Demo.lib demo_feed_env demo_batch))
     = [false]
  /\ map is_store_post
       (snd (@FeedScraper._process_batch_with_ai Demo.lib demo_feed_env demo_batch))
     = [true].
Proof. split; [|split; [|split]]; vm_compute; reflexivity. Qed.


(** ** Further properties of the keyword search *)

Section SearchLoop.
Context {lib : PyLib}.

(** An induction principle for the loop that keeps the test of the
    [break]. *)
Lemma loop_invariant_guarded (P : SearchScraper.state -> Prop) e keyword max_posts :
  (forall idx el st,
      P st -> SearchScraper.screenshot_count st < max_posts ->
      P (SearchScraper.process_post e keyword idx el st)) ->
  forall els idx st, P st -> P (SearchScraper.loop e keyword max_posts idx els st).
Proof.
  intros Hstep els. induction els as [|el rest IH]; intros idx st Hst; simpl;
    [assumption|].
  destruct (max_posts <=? SearchScraper.screenshot_count st) eqn:G; [assumption|].
  apply Nat.leb_gt in G. now apply IH, Hstep.
Qed.

(** The counters of the loop. *)
Definition counters_ok (st : SearchScraper.state) : Prop :=
  SearchScraper.fraud_count st + SearchScraper.legitimate_count st
    = length (SearchScraper.posts st)
  /\ length (SearchScraper.sink st) = 2 * SearchScraper.fraud_count st
  /\ length (SearchScraper.posts st) <= SearchScraper.screenshot_count st.

Lemma process_post_counters e keyword idx el st :
  counters_ok st ->
  counters_ok (SearchScraper.process_post e keyword idx el st)
  /\ SearchScraper.screenshot_count (SearchScraper.process_post e keyword idx el st)
     <= S (SearchScraper.screenshot_count st).
Proof.
  intros (H1 & H2 & H3). unfold SearchScraper.process_post.
  destruct (SearchScraper.is_sponsored el);
    [unfold counters_ok; simpl; lia|].
  destruct (SearchScraper.inner_html el) as [html|]; [|unfold counters_ok; lia].
  destruct (_ || _); [unfold counters_ok; lia|].
  destruct (_ || _); [unfold counters_ok; lia|].
  destruct (SearchScraper.test_mode e).
  { destruct (SearchScraper.save_ok el); unfold counters_ok; simpl; lia. }
  destruct (GPTHTMLFraudDetector.analyze_post_html _ _) as [fr|];
    [|unfold counters_ok; lia].
  destruct (SearchScraper.build_post_data e keyword idx el fr) as [[[pd b]|]|];
    try (unfold counters_ok; lia).
  unfold counters_ok. rewrite retain_posts, retain_sink.
  destruct b; simpl; rewrite !length_app; simpl; lia.
Qed.

Lemma loop_counters e keyword max_posts els :
  let st := SearchScraper.loop e keyword max_posts 0 els SearchScraper.init in
  counters_ok st /\ SearchScraper.screenshot_count st <= max_posts.
Proof.
  apply (loop_invariant_guarded
           (fun st => counters_ok st /\ SearchScraper.screenshot_count st <= max_posts)).
  - intros idx el st [C B] G.
    destruct (process_post_counters e keyword idx el st C) as [C' B'].
    split; [exact C' | lia].
  - split; [|simpl; lia]. unfold counters_ok. simpl. lia.
Qed.

End SearchLoop.

(** The search returns at most [max_posts] posts. *)
Theorem search_returns_at_most_max_posts :
  forall (lib : PyLib) e page keyword max_posts,
    length (fst (SearchScraper._search_keyword e page keyword max_posts)) <= max_posts.
Proof.
  intros lib e page keyword max_posts. unfold SearchScraper._search_keyword.
  destruct page as [els|]; [|simpl; lia]. cbv zeta. cbn [fst].
  destruct (loop_counters e keyword max_posts (slice_to (max_posts * 3) els))
    as ((_ & _ & H) & B).
  lia.
Qed.

(** The summary the search logs is consistent: every returned post is
    counted as fraud or as legitimate, two calls to the storing functions
    are made for each post counted as fraud, and no more than [max_posts]
    posts are counted as analysed. *)
Theorem search_counters_consistent :
  forall (lib : PyLib) e keyword max_posts post_elements,
    let st := SearchScraper.loop e keyword max_posts 0 post_elements SearchScraper.init in
    SearchScraper.fraud_count st + SearchScraper.legitimate_count st
      = length (SearchScraper.posts st)
    /\ length (SearchScraper.sink st) = 2 * SearchScraper.fraud_count st
    /\ length (SearchScraper.posts st) <= SearchScraper.screenshot_count st
    /\ SearchScraper.screenshot_count st <= max_posts.
Proof.
  intros lib e keyword max_posts els st.
  destruct (loop_counters e keyword max_posts els) as ((H1 & H2 & H3) & B).
  now repeat split.
Qed.

(** *** The calls come in pairs *)

(** The score of the post data is a float at or above the threshold. *)
Definition is_accepted (pd : dict) : bool :=
  match get (u "fraud_score") pd with
  | Some (PFloat s) => ge s 0.5
  | _ => false
  end.

(** The two calls made for an accepted post. *)
Definition calls_for (p : dict * dict) : list sink_call :=
  [store_post (fst p); create_fraud_alert (fst p) (snd p)].

Definition paired (st : SearchScraper.state) : Prop :=
  exists prs : list (dict * dict),
    SearchScraper.sink st = flat_map calls_for prs
    /\ map fst prs = filter is_accepted (SearchScraper.posts st).

Lemma process_post_paired {lib : PyLib} e keyword idx el st :
  paired st -> paired (SearchScraper.process_post e keyword idx el st).
Proof.
  intros (prs & Hs & Hp).
  destruct (process_post_cases e keyword idx el st)
    as [[Ep Es]|(html & fr & pd & b & _ & Hfr & B & ->)].
  { exists prs. now rewrite Ep, Es. }
  pose proof (analyze_post_html_result (SearchScraper.detector el)
                (SearchScraper._extract_text_from_html e html)) as R.
  rewrite Hfr in R. simpl in R. clear Hfr.
  apply build_post_data_inv in B
    as (content & score & Gc & M & Gs & Hge & Pc & Ps & _).
  destruct (adapter_score_float fr score R Gs) as (s & ->).
  simpl in Hge. injection Hge as <-.
  assert (A : is_accepted pd = ge s 0.5) by (unfold is_accepted; now rewrite Ps).
  unfold paired. rewrite retain_posts, retain_sink, filter_app. cbn [filter].
  rewrite A. destruct (ge s 0.5).
  - exists (prs ++ [(pd, fr)]). rewrite flat_map_app, map_app. cbn.
    now rewrite Hs, Hp.
  - exists prs. now rewrite !app_nil_r.
Qed.

(** The calls to the storing functions are, in order, one [_store_post]
    followed by one [_create_fraud_alert] for the same post data, for each
    returned post whose score is at least 0.5, and nothing else. *)
Theorem search_calls_are_pairs :
  forall (lib : PyLib) e page keyword max_posts,
    let r := SearchScraper._search_keyword e page keyword max_posts in
    exists prs : list (dict * dict),
      snd r = flat_map calls_for prs
      /\ map fst prs = filter is_accepted (fst r).
Proof.
  intros lib e page keyword max_posts r. subst r.
  unfold SearchScraper._search_keyword. destruct page as [els|]; cbv zeta.
  - apply (loop_invariant paired).
    + intros idx el st. apply process_post_paired.
    + now exists [].
  - now exists [].
Qed.

(** In test mode nothing is analysed: the search returns no post and
    stores nothing. *)
Theorem test_mode_stores_nothing :
  forall (lib : PyLib) e page keyword max_posts,
    SearchScraper.test_mode e = true ->
    SearchScraper._search_keyword e page keyword max_posts = ([], []).
Proof.
  intros lib e page keyword max_posts T.
  unfold SearchScraper._search_keyword. destruct page as [els|]; [|reflexivity].
  cbv zeta.
  assert (H : SearchScraper.posts
                (SearchScraper.loop e keyword max_posts 0
                   (slice_to (max_posts * 3) els) SearchScraper.init) = []
              /\ SearchScraper.sink
                   (SearchScraper.loop e keyword max_posts 0
                      (slice_to (max_posts * 3) els) SearchScraper.init) = []).
  { apply (loop_invariant
             (fun st => SearchScraper.posts st = [] /\ SearchScraper.sink st = [])).
    - intros idx el st [Hp Hs]. unfold SearchScraper.process_post.
      destruct (SearchScraper.is_sponsored el); [now split|].
      destruct (SearchScraper.inner_html el) as [html|]; [|now split].
      destruct (_ || _); [now split|].
      destruct (_ || _); [now split|].
      rewrite T. destruct (SearchScraper.save_ok el); now split.
    - now split. }
  destruct H as [-> ->]. reflexivity.
Qed.

Definition demo_test_env : SearchScraper.env :=
  {| SearchScraper.test_mode := true;
     SearchScraper.screenshots_dir := u "data/screenshots";
     SearchScraper.soup_get_text := fun html => Ok (strip_tags false html) |}.

Lemma test_mode_stores_nothing_witness :
  SearchScraper.test_mode demo_test_env = true
  /\ @SearchScraper._search_keyword Demo.lib demo_test_env
       (Ok [demo_element (GPTHTMLFraudDetector.Content (Some Demo.response_fraud))])
       (u "goa hotel") 5 = ([], []).
Proof.
  split; [reflexivity|].
  exact (test_mode_stores_nothing Demo.lib demo_test_env _ (u "goa hotel") 5 eq_refl).
Defined.


(** ** Further properties of the lexical scorer *)

Lemma pattern_scores_below_threshold :
  forallb (fun rules => negb (ge (score_of 0 rules) 0.5))
          (sublists FraudDetector._load_fraud_patterns) = true.
Proof. vm_compute. reflexivity. Qed.

Lemma keyword_scores_below_high :
  forallb (fun n => negb (ge (score_of n []) 0.7)) (seq 0 135) = true.
Proof. vm_compute. reflexivity. Qed.

Lemma no_content_score : get (u "fraud_score") no_content = Some (PFloat 0.0).
Proof. vm_compute. reflexivity. Qed.

(** A text in which no keyword occurs scores below the retention threshold,
    whatever patterns it matches. *)
Theorem patterns_alone_stay_below_threshold :
  forall (lib : PyLib) (text : str),
    matched_keywords_of text = [] ->
    exists s, get (u "fraud_score") (FraudDetector.analyze_text text) = Some (PFloat s)
              /\ ge s 0.5 = false.
Proof.
  intros lib text H. destruct (analyze_text_cases text) as [B|C].
  - rewrite (analyze_text_no_content text B). exists 0.0%float.
    split; [apply no_content_score | vm_compute; reflexivity].
  - rewrite (analyze_text_content text C). exists (lexical_score text).
    split; [dict_get; reflexivity|].
    unfold lexical_score. rewrite H. cbn [length].
    assert (Hr : In (matched_rules_of text) (sublists FraudDetector._load_fraud_patterns))
      by apply filter_in_sublists.
    pose proof (proj1 (forallb_forall _ _) pattern_scores_below_threshold _ Hr) as H1.
    cbv beta in H1. now apply negb_true_iff in H1.
Qed.

Lemma patterns_alone_stay_below_threshold_witness :
  @matched_keywords_of Demo.lib (u "Limited seats, call 9876543210 for details") = []
  /\ @matched_rules_of Demo.lib (u "Limited seats, call 9876543210 for details") <> []
  /\ exists s,
       get (u "fraud_score")
           (@FraudDetector.analyze_text Demo.lib (u "Limited seats, call 9876543210 for details"))
       = Some (PFloat s)
       /\ ge s 0.5 = false.
Proof.
  assert (H : @matched_keywords_of Demo.lib (u "Limited seats, call 9876543210 for details") = [])
    by (vm_compute; reflexivity).
  split; [exact H|]. split; [vm_compute; discriminate|].
  exact (patterns_alone_stay_below_threshold Demo.lib _ H).
Defined.

(** A text that matches no pattern is never rated HIGH, however many
    keywords occur in it. *)
Theorem keywords_alone_never_high :
  forall (lib : PyLib) (text : str),
    matched_rules_of text = [] ->
    exists s, get (u "fraud_score") (FraudDetector.analyze_text text) = Some (PFloat s)
              /\ ge s 0.7 = false
              /\ get (u "risk_level") (FraudDetector.analyze_text text)
                 <> Some (PStr (u "HIGH")).
Proof.
  intros lib text H. destruct (analyze_text_cases text) as [B|C].
  - rewrite (analyze_text_no_content text B). exists 0.0%float.
    split; [apply no_content_score|]. split; vm_compute; [reflexivity | discriminate].
  - rewrite (analyze_text_content text C). exists (lexical_score text).
    split; [dict_get; reflexivity|].
    assert (G : ge (lexical_score text) 0.7 = false).
    { unfold lexical_score. rewrite H.
      assert (Hn : length (matched_keywords_of text) <= 134).
      { rewrite <- keywords_length. apply filter_length_le. }
      assert (Hk : In (length (matched_keywords_of text)) (seq 0 135)).
      { apply in_seq. lia. }
      pose proof (proj1 (forallb_forall _ _) keyword_scores_below_high _ Hk) as H1.
      cbv beta in H1. now apply negb_true_iff in H1. }
    split; [exact G|].
    dict_get. unfold risk_of. rewrite G.
    destruct (ge (lexical_score text) 0.4); intros [= E]; vm_compute in E; discriminate E.
Qed.

Lemma keywords_alone_never_high_witness :
  @matched_rules_of Demo.lib
    (u "cheap hotel free trip lottery winner investment bitcoin") = []
  /\ length (@matched_keywords_of Demo.lib
               (u "cheap hotel free trip lottery winner investment bitcoin")) = 4
  /\ exists s,
       get (u "fraud_score")
           (@FraudDetector.analyze_text Demo.lib
              (u "cheap hotel free trip lottery winner investment bitcoin"))
       = Some (PFloat s)
       /\ ge s 0.7 = false
       /\ get (u "risk_level")
              (@FraudDetector.analyze_text Demo.lib
                 (u "cheap hotel free trip lottery winner investment bitcoin"))
          <> Some (PStr (u "HIGH")).
Proof.
  assert (H : @matched_rules_of Demo.lib
                (u "cheap hotel free trip lottery winner investment bitcoin") = [])
    by (vm_compute; reflexivity).
  split; [exact H|]. split; [vm_compute; reflexivity|].
  exact (keywords_alone_never_high Demo.lib _ H).
Defined.

(** The result depends on a text with content only through its lower-cased
    form: two such texts that agree after lower-casing get the same
    result. *)
Theorem analyze_text_ignores_case :
  forall (lib : PyLib) (text1 text2 : str),
    (exists c, In c text1 /\ isspace c = false) ->
    (exists c, In c text2 /\ isspace c = false) ->
    lower text1 = lower text2 ->
    FraudDetector.analyze_text text1 = FraudDetector.analyze_text text2.
Proof.
  intros lib text1 text2 C1 C2 E.
  rewrite (analyze_text_content text1 C1), (analyze_text_content text2 C2).
  assert (K : matched_keywords_of text1 = matched_keywords_of text2)
    by (unfold matched_keywords_of; now rewrite E).
  assert (R : matched_rules_of text1 = matched_rules_of text2)
    by (unfold matched_rules_of; now rewrite E).
  unfold lexical_score. rewrite K, R, E. reflexivity.
Qed.

Lemma analyze_text_ignores_case_witness :
  @lower Demo.lib (u "URGENT: Cheap Hotel, pay by UPI")
    = @lower Demo.lib (u "urgent: cheap hotel, pay by upi")
  /\ @FraudDetector.analyze_text Demo.lib (u "URGENT: Cheap Hotel, pay by UPI")
     = @FraudDetector.analyze_text Demo.lib (u "urgent: cheap hotel, pay by upi").
Proof.
  assert (E : @lower Demo.lib (u "URGENT: Cheap Hotel, pay by UPI")
              = @lower Demo.lib (u "urgent: cheap hotel, pay by upi"))
    by (vm_compute; reflexivity).
  split; [exact E|].
  refine (analyze_text_ignores_case Demo.lib _ _ _ _ E);
    vm_compute; eexists; (split; [left; reflexivity | reflexivity]).
Defined.


(** ** Further properties of the adapters *)

Lemma lstrip_length (s : str) : length (lstrip s) <= length s.
Proof.
  induction s as [|c s IH]; [apply Nat.le_refl|].
  simpl. destruct (isspace c); simpl; lia.
Qed.

Lemma strip_length (s : str) : length (strip s) <= length s.
Proof.
  unfold strip. rewrite rstrip_rev, length_rev.
  apply Nat.le_trans with (length (rev (lstrip s))); [apply lstrip_length|].
  rewrite length_rev. apply lstrip_length.
Qed.

Lemma truncate_length {A : Type} (n : nat) (s marker : list A) :
  length (if n <? length s then slice_to n s ++ marker else s) <= n + length marker.
Proof.
  destruct (n <? length s) eqn:E.
  - rewrite length_app. unfold slice_to. rewrite length_firstn. lia.
  - apply Nat.ltb_ge in E. lia.
Qed.

(** The text sent to the backend is bounded: after cleaning, the input has
    at most 15000 characters and the 16 characters of the truncation
    marker. *)
Theorem clean_html_is_bounded :
  forall (lib : PyLib) (html : str),
    length (GPTHTMLFraudDetector._clean_html html)
    <= 15000 + length (newline :: u "... [truncated]")
    /\ length (newline :: u "... [truncated]") = 16.
Proof.
  intros lib html. split; [|vm_compute; reflexivity].
  unfold GPTHTMLFraudDetector._clean_html. cbv zeta.
  eapply Nat.le_trans; [apply strip_length|]. apply truncate_length.
Qed.

(** When the request to the backend itself raises [json.JSONDecodeError],
    the handler of that exception reads [result_text] before it is bound:
    the two GPT adapters raise [UnboundLocalError] instead of returning the
    fallback. *)
Theorem early_decode_error_escapes :
  forall lib : PyLib,
    (forall e html,
        key_set (GPTHTMLFraudDetector.api_key e) = true ->
        GPTHTMLFraudDetector.import_openai e = Ok tt ->
        GPTHTMLFraudDetector.openai_client e = Ok tt ->
        50 <= length (GPTHTMLFraudDetector._clean_html html) ->
        GPTHTMLFraudDetector.chat_completions_create e
          (GPTHTMLFraudDetector._build_fraud_prompt (GPTHTMLFraudDetector._clean_html html))
        = GPTHTMLFraudDetector.Raises JSONDecodeError ->
        GPTHTMLFraudDetector.analyze_post_html e html = Raise UnboundLocalError)
    /\ (forall e image_path image_data,
           key_set (GPTVisionFraudDetector.api_key e) = true ->
           GPTVisionFraudDetector.import_openai e = Ok tt ->
           GPTVisionFraudDetector.openai_client e = Ok tt ->
           GPTVisionFraudDetector.read_image e image_path = Ok image_data ->
           GPTVisionFraudDetector.chat_completions_create e image_data
           = GPTHTMLFraudDetector.Raises JSONDecodeError ->
           GPTVisionFraudDetector.analyze_screenshot e image_path
           = Raise UnboundLocalError).
Proof.
  intros lib. split.
  - intros e html. apply html_decode_error_escapes.
  - intros e p img K Hi Hc Hm Hr. unfold GPTVisionFraudDetector.analyze_screenshot.
    fold (key_set (GPTVisionFraudDetector.api_key e)). rewrite K. cbn [negb].
    unfold GPTVisionFraudDetector.analyze_screenshot_request.
    rewrite Hi, Hc. unfold bind. rewrite Hm, Hr. reflexivity.
Qed.

Lemma early_decode_error_escapes_witness :
  50 <= length (@GPTHTMLFraudDetector._clean_html Demo.lib demo_post_text)
  /\ @GPTHTMLFraudDetector.analyze_post_html Demo.lib
       (demo_env (GPTHTMLFraudDetector.Raises JSONDecodeError)) demo_post_text
     = Raise UnboundLocalError.
Proof.
  assert (L : 50 <= length (@GPTHTMLFraudDetector._clean_html Demo.lib demo_post_text))
    by (apply Nat.leb_le; vm_compute; reflexivity).
  split; [exact L|].
  exact (proj1 (early_decode_error_escapes Demo.lib)
           (demo_env (GPTHTMLFraudDetector.Raises JSONDecodeError)) demo_post_text
           eq_refl eq_refl eq_refl L eq_refl).
Defined.

(** Whatever an adapter returns has the ten fields of a result: no adapter
    returns a partial object. *)
Theorem adapters_return_complete_results :
  forall lib : PyLib,
    (forall e html,
        match GPTHTMLFraudDetector.analyze_post_html e html with
        | Ok d => complete d
        | Raise _ => True
        end)
    /\ (forall e image_path,
           match GPTVisionFraudDetector.analyze_screenshot e image_path with
           | Ok d => complete d
           | Raise _ => True
           end)
    /\ (forall e image_path,
           complete (VisionFraudDetector.analyze_screenshot e image_path)).
Proof.
  intros lib. split; [|split].
  - intros e html. pose proof (analyze_post_html_result e html) as H.
    destruct (GPTHTMLFraudDetector.analyze_post_html e html); [|exact I].
    now apply fallback_or_normalized_complete.
  - intros e p. pose proof (gpt_vision_result e p) as H.
    destruct (GPTVisionFraudDetector.analyze_screenshot e p); [|exact I].
    now apply fallback_or_normalized_complete.
  - intros e p. apply fallback_or_normalized_complete, vision_result.
Qed.


(** ** Further properties of the feed *)

Lemma get_set_item_other (k k' : str) (v : pyval) (d : dict) :
  str_eqb k k' = false -> get k (set_item k' v d) = get k d.
Proof.
  intros N. induction d as [|[k0 v0] d IH]; simpl.
  - now rewrite N.
  - destruct (str_eqb k' k0) eqn:E.
    + apply str_eqb_eq in E. subst k0. simpl. now rewrite N.
    + simpl. destruct (str_eqb k k0); [reflexivity | exact IH].
Qed.

Section FeedLoop.
Context {lib : PyLib}.

(** A call of the feed: the storing of a post of the batch, with the
    result of the analysis of its content, whose score is at least 0.5. *)
Definition stored_ok (batch : list dict) (c : sink_call) : Prop :=
  match c with
  | store_fraud_post p ai =>
    In p batch
    /\ exists text s,
         get_default (u "content") (PStr []) p = PStr text
         /\ ai = FraudDetector.analyze_text text
         /\ get (u "fraud_score") ai = Some (PFloat s)
         /\ ge s 0.5 = true
  | _ => False
  end.

(** A returned post: a stored post, with the id of its row and its
    analysis added, and its other fields as they were. *)
Definition returned_from (sink : list sink_call) (q : dict) : Prop :=
  exists p ai fraud_post_id,
    In (store_fraud_post p ai) sink
    /\ truthy fraud_post_id = true
    /\ q = set_item (u "ai_analysis") (PDict ai)
             (set_item (u "fraud_post_id") fraud_post_id p)
    /\ get (u "content") q = get (u "content") p
    /\ get (u "author_name") q = get (u "author_name") p.

Lemma returned_from_mono (sink more : list sink_call) (q : dict) :
  returned_from sink q -> returned_from (sink ++ more) q.
Proof.
  intros (p & ai & i & H & R). exists p, ai, i.
  split; [apply in_or_app; now left | exact R].
Qed.

Lemma batch_loop_inv e batch posts fraud_posts sink :
  incl posts batch ->
  Forall (stored_ok batch) sink ->
  Forall (returned_from sink) fraud_posts ->
  let r := FeedScraper.batch_loop e posts fraud_posts sink in
  Forall (stored_ok batch) (snd r) /\ Forall (returned_from (snd r)) (fst r).
Proof.
  revert fraud_posts sink.
  induction posts as [|post rest IH]; intros fraud_posts sink Hi Hs Hf;
    [now split|].
  assert (Hr : incl rest batch) by (intros x Hx; apply Hi; now right).
  assert (Hp : In post batch) by (apply Hi; now left).
  cbn [FeedScraper.batch_loop].
  destruct (get_default (u "content") (PStr []) post) as [| | | |text| |] eqn:Hc;
    try (destruct (negb _); [now apply IH | now split]).
  destruct (truthy (PStr text)); cbn [negb]; [|now apply IH].
  destruct (analyze_text_score text) as (s & Gs & _).
  assert (Eg : get_default (u "fraud_score") (PFloat 0.0) (FraudDetector.analyze_text text)
               = PFloat s) by (unfold get_default; now rewrite Gs).
  rewrite Eg. cbn [py_ge].
  destruct (ge s 0.5) eqn:A; [|now apply IH].
  assert (Hs' : Forall (stored_ok batch)
                  (sink ++ [store_fraud_post post (FraudDetector.analyze_text text)])).
  { apply Forall_app. split; [exact Hs|]. constructor; [|constructor].
    split; [exact Hp|]. now exists text, s. }
  assert (Hf' : Forall (returned_from
                  (sink ++ [store_fraud_post post (FraudDetector.analyze_text text)]))
                  fraud_posts).
  { revert Hf. apply Forall_impl. intros q. apply returned_from_mono. }
  destruct (FeedScraper._store_fraud_post e _ post (FraudDetector.analyze_text text))
    as [fraud_post_id|]; [|now split].
  destruct (truthy fraud_post_id) eqn:T; [|now apply IH].
  apply IH; [exact Hr | exact Hs' |].
  apply Forall_app. split; [exact Hf'|]. constructor; [|constructor].
  exists post, (FraudDetector.analyze_text text), fraud_post_id.
  split; [apply in_or_app; right; now left|]. split; [exact T|].
  split; [reflexivity|].
  split; rewrite !get_set_item_other; try reflexivity; vm_compute; reflexivity.
Qed.

End FeedLoop.

(** On the feed, every call to the storing function is for a post of the
    batch whose content the lexical scorer rates at 0.5 or above, together
    with that analysis; every returned post is one of the stored posts,
    with the id of its row and its analysis added and its content and
    author unchanged. *)
Theorem feed_stores_only_posts_at_threshold :
  forall (lib : PyLib) (e : FeedScraper.env) (batch : list dict),
    let r := FeedScraper._process_batch_with_ai e batch in
    Forall (stored_ok batch) (snd r) /\ Forall (returned_from (snd r)) (fst r).
Proof.
  intros lib e batch. unfold FeedScraper._process_batch_with_ai.
  apply batch_loop_inv; [apply incl_refl | constructor | constructor].
Qed.

(** When no database session can be obtained for the first post that
    reaches the threshold, the handler of [_store_fraud_post] raises (it
    rolls back a session that was never bound) and the batch ends there:
    nothing is returned and the posts after it are not analysed. *)
Theorem session_failure_ends_the_batch :
  forall (lib : PyLib) (e : FeedScraper.env) (pre rest : list dict) (p : dict)
         (text : str) (s : float),
    forallb scores_below pre = true ->
    get_default (u "content") (PStr []) p = PStr text ->
    get (u "fraud_score") (FraudDetector.analyze_text text) = Some (PFloat s) ->
    ge s 0.5 = true ->
    FeedScraper.db e 0 = FeedScraper.NoSession ->
    FeedScraper._process_batch_with_ai e (pre ++ p :: rest)
    = ([], [store_fraud_post p (FraudDetector.analyze_text text)]).
Proof.
  intros lib e pre rest p text s Hpre Hc Hs Hge Hdb.
  unfold FeedScraper._process_batch_with_ai.
  rewrite (batch_loop_below e pre (p :: rest) [] [] Hpre).
  cbn [FeedScraper.batch_loop]. rewrite Hc.
  assert (T : truthy (PStr text) = true).
  { destruct text; [|reflexivity].
    destruct (analyze_text_score []) as (s0 & G & Z). rewrite Hs in G.
    injection G as <-. rewrite (Z eq_refl) in Hge. discriminate. }
  rewrite T. cbn [negb]. unfold get_default at 1. rewrite Hs.
  cbn [py_ge]. rewrite Hge. cbn [app length]. rewrite Hdb. reflexivity.
Qed.

Definition no_session_env : FeedScraper.env :=
  {| FeedScraper.db := fun _ => FeedScraper.NoSession;
     FeedScraper.now := PStr (u "2025-01-01 12:00:00");
     FeedScraper.now_timestamp := u "1735732800.0" |}.

(** Two posts that reach the threshold: only the first is handed to the
    storing function. *)
Lemma session_failure_ends_the_batch_witness :
  @scores_below Demo.lib
    (feed_post 3 "Fast Cash" "guaranteed returns, act now, 100% risk free") = false
  /\ @FeedScraper._process_batch_with_ai Demo.lib no_session_env
       (demo_batch_before
          ++ demo_fraud_post
          :: [feed_post 3 "Fast Cash" "guaranteed returns, act now, 100% risk free"])
     = ([], [store_fraud_post demo_fraud_post
               (@FraudDetector.analyze_text Demo.lib
                  (u "urgent hurry immediately last chance"))]).
Proof.
  split; [vm_compute; reflexivity|].
  refine (session_failure_ends_the_batch Demo.lib no_session_env demo_batch_before
            [feed_post 3 "Fast Cash" "guaranteed returns, act now, 100% risk free"]
            demo_fraud_post (u "urgent hurry immediately last chance") 0.8%float
            _ _ _ _ _);
    vm_compute; reflexivity.
Defined.

(** *** The platform id of a feed post *)



(** ** Further properties of the status update *)

Lemma sql_update_absent (table : list Threats.alert) (threat_id : Z) (new_status : str) :
  Threats.status_of table threat_id = None ->
  Threats.sql_update table threat_id new_status = table.
Proof.
  unfold Threats.status_of, Threats.sql_update.
  induction table as [|a table IH]; [reflexivity|].
  simpl. destruct (Threats.id a =? threat_id)%Z; [discriminate|].
  intros H. now rewrite IH.
Qed.

(** A status update for an id that no alert has changes nothing and
    reports that the threat was not found. *)
Theorem unknown_threat_is_reported :
  forall (table : list Threats.alert) (threat_id : Z) (new_status : str),
    Threats.status_of table threat_id = None ->
    Threats.update_threat_status Threats.Works table threat_id new_status
    = (table,
       {| Threats.success := false;
          Threats.data := None;
          Threats.error :=
            Some (u "Threat " ++ str_of_int threat_id ++ u " not found") |}).
Proof.
  intros table threat_id new_status H. unfold Threats.update_threat_status.
  rewrite returning_status_of, H. now rewrite (sql_update_absent table threat_id new_status H).
Qed.

Lemma unknown_threat_is_reported_witness :
  Threats.status_of resolved_table 8 = None
  /\ fst (Threats.update_threat_status Threats.Works resolved_table 8 (u "open"))
     = resolved_table
  /\ Threats.error
       (snd (Threats.update_threat_status Threats.Works resolved_table 8 (u "open")))
     = Some (u "Threat 8 not found").
Proof.
  assert (H : Threats.status_of resolved_table 8 = None) by (vm_compute; reflexivity).
  pose proof (unknown_threat_is_reported resolved_table 8 (u "open") H) as E.
  split; [exact H|]. split.
  - exact (f_equal fst E).
  - refine (eq_trans (f_equal (fun r => Threats.error (snd r)) E) _).
    vm_compute. reflexivity.
Defined.

(** A status update never adds, removes or reorders alerts and never
    touches a column other than the status: the ids and the other columns
    of the table are as before, whether the database works or raises (the
    transaction is then rolled back). *)
Theorem status_update_keeps_ids_and_columns :
  forall (db : Threats.db_behaviour) (table : list Threats.alert) (threat_id : Z)
         (new_status : str),
    let table' := fst (Threats.update_threat_status db table threat_id new_status) in
    map Threats.id table' = map Threats.id table
    /\ map Threats.columns table' = map Threats.columns table
    /\ forall a, In a table' -> Threats.status a = new_status \/ In a table.
Proof.
  intros db table threat_id new_status table'. subst table'.
  assert (H : map Threats.id (Threats.sql_update table threat_id new_status)
              = map Threats.id table
              /\ map Threats.columns (Threats.sql_update table threat_id new_status)
                 = map Threats.columns table
              /\ forall a, In a (Threats.sql_update table threat_id new_status) ->
                           Threats.status a = new_status \/ In a table).
  { unfold Threats.sql_update. induction table as [|a table (IH1 & IH2 & IH3)];
      [repeat split; simpl; tauto|].
    simpl. rewrite IH1, IH2. split; [|split].
    - now destruct (Threats.id a =? threat_id)%Z.
    - now destruct (Threats.id a =? threat_id)%Z.
    - intros b [<-|Hb].
      + destruct (Threats.id a =? threat_id)%Z; [now left | right; now left].
      + destruct (IH3 b Hb) as [L|R]; [now left | right; now right]. }
  destruct db; cbn [Threats.update_threat_status fst]; try exact H;
    repeat split; auto.
Qed.
